(** * Signal detection service: edge-triggered alerts on market metrics

    A shallow embedding of [backend/services/signal_detection_service.py].
    Python floats are IEEE binary64 and are modelled by Rocq's primitive
    floats; Python ints are [Z]; JSON-shaped values (trigger conditions,
    market payloads) are a small universe [PyVal]; the dictionary of edge
    states is a [gmap].  Exceptions are explicit results, and the mutable
    service object is a record threaded through every call. *)

From Stdlib Require Import QArith Qpower.
From Stdlib Require Import ZArith Floats String List Bool Lia.
From Stdlib Require Import Ascii DecimalString DecimalZ.
From stdpp Require Import gmap strings.

Set Warnings "-inexact-float,-register-all".

Open Scope string_scope.
Open Scope list_scope.
Open Scope Z_scope.

(** ** Python values *)

Inductive PyVal : Type :=
| VNone
| VBool (b : bool)
| VInt (z : Z)
| VFloat (f : float)
| VStr (s : string)
| VList (l : list PyVal)
| VDict (d : list (string * PyVal)).

(** A dict with string keys, as an association list; the first binding of a
    key is the one [get] sees. *)
Definition PyDict : Type := list (string * PyVal).

Inductive PyExn : Type :=
| TypeError
| ValueError
| AttributeError
| OverflowError
| ImportError
| DatabaseError.

Inductive Result (A : Type) : Type :=
| Ok (a : A)
| Raise (e : PyExn).

Arguments Ok {A} a.
Arguments Raise {A} e.

Definition rbind {A B : Type} (r : Result A) (k : A -> Result B) : Result B :=
  match r with
  | Ok a => k a
  | Raise e => Raise e
  end.

Fixpoint dict_get (d : PyDict) (k : string) : option PyVal :=
  match d with
  | [] => None
  | (k', v) :: d' => if String.eqb k k' then Some v else dict_get d' k
  end.

(** [d.get(k)]: [None] when the key is absent. *)
Definition dict_get_none (d : PyDict) (k : string) : PyVal :=
  match dict_get d k with
  | Some v => v
  | None => VNone
  end.

(** [d.get(k, default)]. *)
Definition dict_get_default (d : PyDict) (k : string) (default : PyVal) : PyVal :=
  match dict_get d k with
  | Some v => v
  | None => default
  end.

(** [x.get(k, default)] on an arbitrary value: only dicts have [get]. *)
Definition py_get (x : PyVal) (k : string) (default : PyVal) : Result PyVal :=
  match x with
  | VDict d => Ok (dict_get_default d k default)
  | _ => Raise AttributeError
  end.

(** Truth value testing ([if x], [not x], [all]). *)
Definition truthy (x : PyVal) : bool :=
  match x with
  | VNone => false
  | VBool b => b
  | VInt z => negb (z =? 0)
  | VFloat f => negb (PrimFloat.eqb f 0%float)
  | VStr s => negb (String.eqb s "")
  | VList l => match l with [] => false | _ => true end
  | VDict d => match d with [] => false | _ => true end
  end.

Definition is_none (x : PyVal) : bool :=
  match x with
  | VNone => true
  | _ => false
  end.

(** [x == "literal"]. *)
Definition py_eq_str (x : PyVal) (lit : string) : bool :=
  match x with
  | VStr s => String.eqb s lit
  | _ => false
  end.

(** ** Numbers *)

Module PyNum.

(** [float(n)] for an int: correctly rounded, [OverflowError] when the
    int is too large for a double. *)
Definition float_of_Z (z : Z) : Result float :=
  let f := SF2Prim (binary_normalize prec emax z 0 false) in
  if PrimFloat.is_infinity f then Raise OverflowError else Ok f.

(** Exact comparison of a float with an int, the way rich comparison of a
    float against an int works: no rounding of the int.  [None] is the
    unordered case (NaN). *)
Definition compare_Z (x : float) (z : Z) : option comparison :=
  match Prim2SF x with
  | S754_nan => None
  | S754_infinity s => Some (if s then Lt else Gt)
  | S754_zero _ => Some (0 ?= z)
  | S754_finite s m e =>
      let v := if s then Z.neg m else Z.pos m in
      Some (if 0 <=? e then (v * 2 ^ e ?= z) else (v ?= z * 2 ^ (- e)))
  end.

Definition int_of_bool (b : bool) : Z := if b then 1 else 0.

Definition is_lt (c : option comparison) : bool :=
  match c with Some Lt => true | _ => false end.
Definition is_le (c : option comparison) : bool :=
  match c with Some (Lt | Eq) => true | _ => false end.
Definition is_gt (c : option comparison) : bool :=
  match c with Some Gt => true | _ => false end.
Definition is_ge (c : option comparison) : bool :=
  match c with Some (Gt | Eq) => true | _ => false end.

(** [x > y], [x >= y], [x < y], [x <= y] with a float on the left. *)
Definition gt (x : float) (y : PyVal) : Result bool :=
  match y with
  | VFloat t => Ok (PrimFloat.ltb t x)
  | VInt z => Ok (is_gt (compare_Z x z))
  | VBool b => Ok (is_gt (compare_Z x (int_of_bool b)))
  | _ => Raise TypeError
  end.

Definition ge (x : float) (y : PyVal) : Result bool :=
  match y with
  | VFloat t => Ok (PrimFloat.leb t x)
  | VInt z => Ok (is_ge (compare_Z x z))
  | VBool b => Ok (is_ge (compare_Z x (int_of_bool b)))
  | _ => Raise TypeError
  end.

Definition lt (x : float) (y : PyVal) : Result bool :=
  match y with
  | VFloat t => Ok (PrimFloat.ltb x t)
  | VInt z => Ok (is_lt (compare_Z x z))
  | VBool b => Ok (is_lt (compare_Z x (int_of_bool b)))
  | _ => Raise TypeError
  end.

Definition le (x : float) (y : PyVal) : Result bool :=
  match y with
  | VFloat t => Ok (PrimFloat.leb x t)
  | VInt z => Ok (is_le (compare_Z x z))
  | VBool b => Ok (is_le (compare_Z x (int_of_bool b)))
  | _ => Raise TypeError
  end.

(** [x - y] with a float on the left: an int operand is converted first. *)
Definition sub (x : float) (y : PyVal) : Result float :=
  match y with
  | VFloat t => Ok (PrimFloat.sub x t)
  | VInt z => rbind (float_of_Z z) (fun t => Ok (PrimFloat.sub x t))
  | VBool b => rbind (float_of_Z (int_of_bool b)) (fun t => Ok (PrimFloat.sub x t))
  | _ => Raise TypeError
  end.

(** [n <= k] for an int literal [k] on the right. *)
Definition le_int (x : PyVal) (k : Z) : Result bool :=
  match x with
  | VInt z => Ok (z <=? k)
  | VBool b => Ok (int_of_bool b <=? k)
  | VFloat f => Ok (is_le (compare_Z f k))
  | _ => Raise TypeError
  end.

End PyNum.

(** ** Operator evaluator *)

Definition tolerance : float := 1e-9%float.

(** [_evaluate_condition]; the warning for an unknown operator is a log line
    only. *)
Definition _evaluate_condition (value : float) (operator threshold : PyVal)
  : Result bool :=
  if py_eq_str operator ">" then PyNum.gt value threshold
  else if py_eq_str operator ">=" then PyNum.ge value threshold
  else if py_eq_str operator "<" then PyNum.lt value threshold
  else if py_eq_str operator "<=" then PyNum.le value threshold
  else if py_eq_str operator "==" then
    rbind (PyNum.sub value threshold)
      (fun d => Ok (PrimFloat.ltb (PrimFloat.abs d) tolerance))
  else if py_eq_str operator "!=" then
    rbind (PyNum.sub value threshold)
      (fun d => Ok (PrimFloat.leb tolerance (PrimFloat.abs d)))
  else if py_eq_str operator "abs_greater_than" || py_eq_str operator "abs_gt" then
    PyNum.gt (PrimFloat.abs value) threshold
  else if py_eq_str operator "abs_less_than" || py_eq_str operator "abs_lt" then
    PyNum.lt (PrimFloat.abs value) threshold
  else Ok false.

(** ** Period bucketer *)

(** [_time_window_to_period]: a string passes through, a number of seconds
    is bucketed.  The result is a string in both cases. *)
Definition _time_window_to_period (time_window : PyVal) : Result string :=
  match time_window with
  | VStr s => Ok s
  | _ =>
      rbind (PyNum.le_int time_window 60) (fun b =>
      if b then Ok "1m" else
      rbind (PyNum.le_int time_window 180) (fun b =>
      if b then Ok "3m" else
      rbind (PyNum.le_int time_window 300) (fun b =>
      if b then Ok "5m" else
      rbind (PyNum.le_int time_window 900) (fun b =>
      if b then Ok "15m" else
      rbind (PyNum.le_int time_window 1800) (fun b =>
      if b then Ok "30m" else
      rbind (PyNum.le_int time_window 3600) (fun b =>
      if b then Ok "1h" else
      rbind (PyNum.le_int time_window 7200) (fun b =>
      if b then Ok "2h" else Ok "4h")))))))
  end.

(** ** Data model *)

Module SignalState.
Record t : Type := mk {
  signal_id : Z;
  symbol : string;
  is_active : bool;
  last_value : option float;
  last_check_time : float
}.
End SignalState.

(** An entry of [_signal_pools_cache]; the service builds these dicts itself
    with exactly these keys. *)
Module Pool.
Record t : Type := mk {
  id : Z;
  pool_name : string;
  signal_ids : list Z;
  symbols : list string;
  enabled : bool
}.
End Pool.

(** An entry of [_signals_cache], built by the service with exactly these
    keys, so [signal_def.get("trigger_condition", {})] always finds the key
    and yields whatever the store holds for it. *)
Module SignalDef.
Record t : Type := mk {
  id : Z;
  signal_name : PyVal;
  description : PyVal;
  trigger_condition : PyVal;
  enabled : bool
}.
End SignalDef.

Module TriggerRecord.
Record t : Type := mk {
  signal_id : Z;
  signal_name : PyVal;
  symbol : string;
  trigger_value : float;
  threshold : PyVal;
  operator : PyVal;
  metric : PyVal;
  trigger_time : float;
  description : PyVal
}.
End TriggerRecord.

(** Rows of [signal_pools] and [signal_definitions] as the queries return
    them; the two array columns may be NULL. *)
Module PoolRow.
Record t : Type := mk {
  id : Z;
  pool_name : string;
  signal_ids : option (list Z);
  symbols : option (list string);
  enabled : bool
}.
End PoolRow.

(** What lies outside the service at the time of a call: the clock, the
    interpreter's [float(str)] and set iteration order, the configuration
    store, the indicator store and the trigger log table. *)
Record Env : Type := mkEnv {
  clock : nat -> float;
  float_of_str : string -> option float;
  iter_order : list Z -> list Z;
  open_session : Result unit;
  select_pools : Result (list PoolRow.t);
  select_signals : Result (list SignalDef.t);
  get_indicator_value : string -> string -> string -> Result (option float);
  insert_trigger_log : TriggerRecord.t -> Result unit
}.

(** The singleton service object, followed by the two pieces of the outside
    world that calls change: how many times the clock has been read, and the
    rows written to [signal_trigger_logs]. *)
Record State : Type := mkState {
  signal_states : gmap (Z * string) SignalState.t;
  _signal_pools_cache : list Pool.t;
  _signals_cache : gmap Z SignalDef.t;
  _cache_time : float;
  _cache_ttl : float;
  ticks : nat;
  signal_trigger_logs : list TriggerRecord.t
}.

(** [__init__]. *)
Definition __init__ (n : nat) (logs : list TriggerRecord.t) : State :=
  mkState ∅ [] ∅ 0%float 60%float n logs.

Definition set_signal_states (st : State) (m : gmap (Z * string) SignalState.t) : State :=
  mkState m (_signal_pools_cache st) (_signals_cache st) (_cache_time st)
    (_cache_ttl st) (ticks st) (signal_trigger_logs st).

Definition set_signal_pools_cache (st : State) (ps : list Pool.t) : State :=
  mkState (signal_states st) ps (_signals_cache st) (_cache_time st)
    (_cache_ttl st) (ticks st) (signal_trigger_logs st).

Definition set_signals_cache (st : State) (m : gmap Z SignalDef.t) : State :=
  mkState (signal_states st) (_signal_pools_cache st) m (_cache_time st)
    (_cache_ttl st) (ticks st) (signal_trigger_logs st).

Definition set_cache_time (st : State) (t : float) : State :=
  mkState (signal_states st) (_signal_pools_cache st) (_signals_cache st) t
    (_cache_ttl st) (ticks st) (signal_trigger_logs st).

Definition add_trigger_log (st : State) (r : TriggerRecord.t) : State :=
  mkState (signal_states st) (_signal_pools_cache st) (_signals_cache st)
    (_cache_time st) (_cache_ttl st) (ticks st) (signal_trigger_logs st ++ [r]).

(** [time.time()]: the next reading of the clock. *)
Definition time_time (env : Env) (st : State) : float * State :=
  (clock env (ticks st),
   mkState (signal_states st) (_signal_pools_cache st) (_signals_cache st)
     (_cache_time st) (_cache_ttl st) (S (ticks st)) (signal_trigger_logs st)).

(** ** Metric resolver *)

(** [float(x)]. *)
Definition py_float (env : Env) (x : PyVal) : Result float :=
  match x with
  | VFloat f => Ok f
  | VInt z => PyNum.float_of_Z z
  | VBool b => Ok (if b then 1%float else 0%float)
  | VStr s =>
      match float_of_str env s with
      | Some f => Ok f
      | None => Raise ValueError
      end
  | _ => Raise TypeError
  end.

(** [float(x) if x else None] after [asset_ctx.get(field)]. *)
Definition get_asset_field (env : Env) (field : string) (market_data : PyDict)
  : Result (option float) :=
  let asset_ctx := dict_get_default market_data "asset_ctx" (VDict []) in
  rbind (py_get asset_ctx field VNone) (fun x =>
  if truthy x then rbind (py_float env x) (fun f => Ok (Some f)) else Ok None).

Definition _get_oi (env : Env) (symbol : string) (market_data : PyDict)
  : Result (option float) :=
  get_asset_field env "openInterest" market_data.

Definition _get_funding_rate (env : Env) (symbol : string) (market_data : PyDict)
  : Result (option float) :=
  get_asset_field env "funding" market_data.

Definition indicator_map : list (string * string) :=
  [("oi_delta_percent", "OI_DELTA"); ("cvd", "CVD"); ("depth_ratio", "DEPTH");
   ("order_imbalance", "IMBALANCE"); ("taker_buy_ratio", "TAKER")].

Fixpoint assoc (m : list (string * string)) (k : string) : option string :=
  match m with
  | [] => None
  | (k', v) :: m' => if String.eqb k k' then Some v else assoc m' k
  end.

(** [metric not in indicator_map] followed by [indicator_map[metric]]: a
    list or a dict is unhashable, any other non-string is simply not a key. *)
Definition indicator_lookup (metric : PyVal) : Result (option string) :=
  match metric with
  | VStr s => Ok (assoc indicator_map s)
  | VList _ | VDict _ => Raise TypeError
  | _ => Ok None
  end.

(** The body of [_get_metric_value], inside its [try]. *)
Definition get_metric_value_body (env : Env) (metric : PyVal) (symbol : string)
  (market_data : PyDict) (time_window : PyVal) : Result (option float) :=
  if py_eq_str metric "oi" then _get_oi env symbol market_data
  else if py_eq_str metric "funding_rate" then _get_funding_rate env symbol market_data
  else
    rbind (_time_window_to_period time_window) (fun period =>
    rbind (indicator_lookup metric) (fun kind =>
    match kind with
    | None => Ok None
    | Some indicator_type =>
        rbind (open_session env) (fun _ =>
        get_indicator_value env symbol indicator_type period)
    end)).

(** [_get_metric_value]: every exception becomes [None]. *)
Definition _get_metric_value (env : Env) (metric : PyVal) (symbol : string)
  (market_data : PyDict) (time_window : PyVal) : option float :=
  match get_metric_value_body env metric symbol market_data time_window with
  | Ok r => r
  | Raise _ => None
  end.

(** ** Signal evaluator *)

(** [_log_trigger]: a failed insert is logged and swallowed. *)
Definition _log_trigger (env : Env) (r : TriggerRecord.t) (st : State) : State :=
  match open_session env with
  | Raise _ => st
  | Ok _ =>
      match insert_trigger_log env r with
      | Ok _ => add_trigger_log st r
      | Raise _ => st
      end
  end.

(** The state for a key, created inactive on first use. *)
Definition state_of (st : State) (signal_id : Z) (symbol : string) : SignalState.t :=
  match signal_states st !! (signal_id, symbol) with
  | Some s => s
  | None => SignalState.mk signal_id symbol false None 0%float
  end.

(** The second part of [_check_signal_trigger], from [# Check condition] on:
    evaluate, get or create the state, detect the edge, update the state. *)
Definition check_condition (env : Env) (signal_id : Z) (signal_def : SignalDef.t)
  (symbol : string) (metric operator threshold : PyVal) (current_value : float)
  (st : State) : Result (option TriggerRecord.t) * State :=
  match _evaluate_condition current_value operator threshold with
  | Raise e => (Raise e, st)
  | Ok condition_met =>
      let state := state_of st signal_id symbol in
      let should_trigger := condition_met && negb (SignalState.is_active state) in
      let '(now, st1) := time_time env st in
      let state' :=
        SignalState.mk (SignalState.signal_id state) (SignalState.symbol state)
          condition_met (Some current_value) now in
      let st2 := set_signal_states st1 (<[(signal_id, symbol) := state']> (signal_states st1)) in
      if should_trigger then
        let '(trigger_time, st3) := time_time env st2 in
        let trigger_result :=
          TriggerRecord.mk signal_id (SignalDef.signal_name signal_def) symbol
            current_value threshold operator metric trigger_time
            (SignalDef.description signal_def) in
        (Ok (Some trigger_result), _log_trigger env trigger_result st3)
      else (Ok None, st2)
  end.

(** The first part of [_check_signal_trigger]: the condition fields and the
    current metric value.  [Ok None] is either early [return None]; a
    [trigger_condition] that is not a dict has no [get]. *)
Definition read_condition (env : Env) (signal_def : SignalDef.t) (symbol : string)
  (market_data : PyDict) : Result (option (PyVal * PyVal * PyVal * float)) :=
  match SignalDef.trigger_condition signal_def with
  | VDict condition =>
      let metric := dict_get_none condition "metric" in
      let operator := dict_get_none condition "operator" in
      let threshold := dict_get_none condition "threshold" in
      let time_window := dict_get_default condition "time_window" (VInt 60) in
      if negb (truthy metric && truthy operator && negb (is_none threshold)) then
        Ok None
      else
        match _get_metric_value env metric symbol market_data time_window with
        | None => Ok None
        | Some current_value => Ok (Some (metric, operator, threshold, current_value))
        end
  | _ => Raise AttributeError
  end.

Definition _check_signal_trigger (env : Env) (signal_id : Z) (signal_def : SignalDef.t)
  (symbol : string) (market_data : PyDict) (st : State)
  : Result (option TriggerRecord.t) * State :=
  match read_condition env signal_def symbol market_data with
  | Raise e => (Raise e, st)
  | Ok None => (Ok None, st)
  | Ok (Some (metric, operator, threshold, current_value)) =>
      check_condition env signal_id signal_def symbol metric operator threshold
        current_value st
  end.

(** ** Configuration cache *)

Definition pool_of_row (row : PoolRow.t) : Pool.t :=
  Pool.mk (PoolRow.id row) (PoolRow.pool_name row)
    (match PoolRow.signal_ids row with Some l => l | None => [] end)
    (match PoolRow.symbols row with Some l => l | None => [] end)
    (PoolRow.enabled row).

(** The dict comprehension keyed by [row[0]]: a later row with the same id
    replaces an earlier one. *)
Definition signals_of_rows (rows : list SignalDef.t) : gmap Z SignalDef.t :=
  fold_left (fun m row => <[SignalDef.id row := row]> m) rows ∅.

(** [now - self._cache_time < self._cache_ttl] is false. *)
Definition cache_expired (now : float) (st : State) : bool :=
  negb (PrimFloat.ltb (PrimFloat.sub now (_cache_time st)) (_cache_ttl st)).

(** The two queries of a refresh, in the order the source issues them; each
    cache attribute is assigned as soon as its own query has returned. *)
Definition load_caches (env : Env) (now : float) (st : State) : State :=
  match open_session env with
  | Raise _ => st
  | Ok _ =>
      match select_pools env with
      | Raise _ => st
      | Ok pool_rows =>
          let st1 := set_signal_pools_cache st (map pool_of_row pool_rows) in
          match select_signals env with
          | Raise _ => st1
          | Ok signal_rows =>
              let st2 := set_signals_cache st1 (signals_of_rows signal_rows) in
              set_cache_time st2 now
          end
      end
  end.

Definition _refresh_cache_if_needed (env : Env) (st : State) : State :=
  let '(now, st1) := time_time env st in
  if cache_expired now st1 then load_caches env now st1 else st1.

(** ** Entry point *)

Definition relevant (symbol : string) (pool : Pool.t) : bool :=
  Pool.enabled pool && existsb (String.eqb symbol) (Pool.symbols pool).

Definition set_add (s : list Z) (x : Z) : list Z :=
  if existsb (Z.eqb x) s then s else s ++ [x].

(** [signal_ids.update(ids)] on a set kept as the list of its distinct
    members. *)
Definition set_update (s ids : list Z) : list Z := fold_left set_add ids s.

(** The [for signal_id in signal_ids] loop.  An exception leaving
    [_check_signal_trigger] is caught by the [try] around the whole body of
    [detect_signals], so the loop ends there with what was collected. *)
Fixpoint check_signals (env : Env) (ids : list Z) (symbol : string)
  (market_data : PyDict) (triggered_signals : list TriggerRecord.t) (st : State)
  : list TriggerRecord.t * State :=
  match ids with
  | [] => (triggered_signals, st)
  | signal_id :: rest =>
      match _signals_cache st !! signal_id with
      | None => check_signals env rest symbol market_data triggered_signals st
      | Some signal_def =>
          if negb (SignalDef.enabled signal_def) then
            check_signals env rest symbol market_data triggered_signals st
          else
            match _check_signal_trigger env signal_id signal_def symbol market_data st with
            | (Raise _, st') => (triggered_signals, st')
            | (Ok None, st') =>
                check_signals env rest symbol market_data triggered_signals st'
            | (Ok (Some trigger_result), st') =>
                check_signals env rest symbol market_data
                  (triggered_signals ++ [trigger_result]) st'
            end
      end
  end.

Definition detect_signals (env : Env) (symbol : string) (market_data : PyDict)
  (st : State) : list TriggerRecord.t * State :=
  let st1 := _refresh_cache_if_needed env st in
  let relevant_pools := List.filter (relevant symbol) (_signal_pools_cache st1) in
  match relevant_pools with
  | [] => ([], st1)
  | _ =>
      let signal_ids :=
        fold_left (fun s pool => set_update s (Pool.signal_ids pool)) relevant_pools [] in
      check_signals env (iter_order env signal_ids) symbol market_data [] st1
  end.

Definition key_matches (signal_id : option Z) (symbol : option string)
  (k : Z * string) : bool :=
  (match signal_id with None => true | Some i => k.1 =? i end)
  && (match symbol with None => true | Some s => String.eqb k.2 s end).

(** [reset_state]. *)
Definition reset_state (signal_id : option Z) (symbol : option string) (st : State)
  : State :=
  match signal_id, symbol with
  | None, None => set_signal_states st ∅
  | _, _ =>
      set_signal_states st
        (filter (fun kv : (Z * string) * SignalState.t =>
                   key_matches signal_id symbol kv.1 = false)
           (signal_states st))
  end.

(** ** Vocabulary of the statements *)

(** The operator spellings [_evaluate_condition] recognises. *)
Definition known_operators : list string :=
  [">"; ">="; "<"; "<="; "=="; "!="; "abs_greater_than"; "abs_gt";
   "abs_less_than"; "abs_lt"].

(** The activation flag stored for a pair; a pair without an entry counts as
    inactive, which is how its entry is created. *)
Definition stored_flag (st : State) (signal_id : Z) (symbol : string) : bool :=
  SignalState.is_active (state_of st signal_id symbol).

(** The value of [condition_met] in an evaluation, when the evaluation gets
    that far: the condition is well formed, the metric resolves and the
    operator evaluator returns. *)
Definition condition_outcome (env : Env) (signal_def : SignalDef.t) (symbol : string)
  (market_data : PyDict) : option bool :=
  match read_condition env signal_def symbol market_data with
  | Ok (Some (_, operator, threshold, current_value)) =>
      match _evaluate_condition current_value operator threshold with
      | Ok condition_met => Some condition_met
      | Raise _ => None
      end
  | _ => None
  end.

(** Whether a call of [_check_signal_trigger] handed back a trigger record. *)
Definition produced (r : Result (option TriggerRecord.t)) : bool :=
  match r with
  | Ok (Some _) => true
  | _ => false
  end.

(** One evaluation of a pair: the outside world at that moment, the
    definition then in force and the market update. *)
Record Evaluation : Type := mkEvaluation {
  ev_env : Env;
  ev_def : SignalDef.t;
  ev_data : PyDict
}.

(** Successive evaluations of one pair, each starting from the state the
    previous one left. *)
Fixpoint evaluate_pair (signal_id : Z) (symbol : string) (evs : list Evaluation)
  (st : State) : list (Result (option TriggerRecord.t)) * State :=
  match evs with
  | [] => ([], st)
  | ev :: rest =>
      let '(r, st1) :=
        _check_signal_trigger (ev_env ev) signal_id (ev_def ev) symbol (ev_data ev) st in
      let '(rs, st2) := evaluate_pair signal_id symbol rest st1 in
      (r :: rs, st2)
  end.

(** The rising edges of a sequence of condition outcomes, starting from a
    given activation flag. *)
Fixpoint rising_edges (active : bool) (outcomes : list bool) : list bool :=
  match outcomes with
  | [] => []
  | c :: rest => (c && negb active) :: rising_edges c rest
  end.

Definition has_outcome (symbol : string) (c : bool) (ev : Evaluation) : Prop :=
  condition_outcome (ev_env ev) (ev_def ev) symbol (ev_data ev) = Some c.

(** ** The configuration of the end-to-end scenario *)

Module Scenario.

(** Signal S1: open interest above one million. *)
Definition S1 : SignalDef.t :=
  SignalDef.mk 1 (VStr "S1") VNone
    (VDict [("metric", VStr "oi"); ("operator", VStr ">"); ("threshold", VInt 1000000)])
    true.

(** Pool P: enabled, watches BTC, holds S1. *)
Definition P : PoolRow.t := PoolRow.mk 1 "P" (Some [1]) (Some ["BTC"]) true.

(** A market update carrying the given open interest. *)
Definition update (oi : Z) : PyDict :=
  [("asset_ctx", VDict [("openInterest", VInt oi)])].

(** A clock that starts at some epoch time and advances one second per
    reading. *)
Definition wall_clock (n : nat) : float :=
  (1700000000 + PrimFloat.of_uint63 (Uint63.of_Z (Z.of_nat n)))%float.

(** A healthy outside world holding the given configuration; a set of ids
    is iterated in the order the ids went in, and no text parses as a
    float. *)
Definition world (pools : list PoolRow.t) (signals : list SignalDef.t) : Env :=
  mkEnv wall_clock (fun _ => None) (fun ids => ids) (Ok tt) (Ok pools) (Ok signals)
    (fun _ _ _ => Ok None) (fun _ => Ok tt).

Definition env : Env := world [P] [S1].

Definition evaluation (oi : Z) : Evaluation := mkEvaluation env S1 (update oi).

(** The trigger record of S1 on BTC for a value and a trigger time. *)
Definition record (v trigger_time : float) : TriggerRecord.t :=
  TriggerRecord.mk 1 (VStr "S1") "BTC" v (VInt 1000000) (VStr ">") (VStr "oi")
    trigger_time VNone.

(** The caches hold exactly P and S1. *)
Definition loaded (st : State) : Prop :=
  _signal_pools_cache st = [pool_of_row P]
  /\ _signals_cache st = signals_of_rows [S1].

End Scenario.

(** ** A refresh whose second query fails *)

Module Outage.

(** The pool as it now stands in the store: it has gained a signal and a
    symbol since the caches were filled. *)
Definition P' : PoolRow.t := PoolRow.mk 1 "P" (Some [1; 2]) (Some ["BTC"; "ETH"]) true.

(** The pool query answers, the definition query raises. *)
Definition env : Env :=
  mkEnv Scenario.wall_clock (fun _ => None) (fun ids => ids) (Ok tt) (Ok [P'])
    (Raise DatabaseError) (fun _ _ _ => Ok None) (fun _ => Ok tt).

(** A service whose caches were filled with P and S1 long ago. *)
Definition stale : State :=
  mkState ∅ [pool_of_row Scenario.P] (signals_of_rows [Scenario.S1])
    1000%float 60%float 0 [].

End Outage.

(** ** Two signals in one pool *)

Module Batch.

(** Signal A, whose threshold was stored as text. *)
Definition A : SignalDef.t :=
  SignalDef.mk 1 (VStr "A") VNone
    (VDict [("metric", VStr "oi"); ("operator", VStr ">");
            ("threshold", VStr "1000000")])
    true.

(** Signal A with the threshold left out. *)
Definition A_without_threshold : SignalDef.t :=
  SignalDef.mk 1 (VStr "A") VNone
    (VDict [("metric", VStr "oi"); ("operator", VStr ">")])
    true.

(** Signal B, well formed. *)
Definition B : SignalDef.t :=
  SignalDef.mk 2 (VStr "B") VNone
    (VDict [("metric", VStr "oi"); ("operator", VStr ">"); ("threshold", VInt 1000000)])
    true.

Definition pool (ids : list Z) : PoolRow.t :=
  PoolRow.mk 1 "P" (Some ids) (Some ["BTC"]) true.

(** The record of B on BTC. *)
Definition record_B (v trigger_time : float) : TriggerRecord.t :=
  TriggerRecord.mk 2 (VStr "B") "BTC" v (VInt 1000000) (VStr ">") (VStr "oi")
    trigger_time VNone.

End Batch.

(** Successive calls of [detectSignals] for one symbol, one per update. *)
Fixpoint detect_all (env : Env) (symbol : string) (updates : list PyDict) (st : State)
  : list (list TriggerRecord.t) * State :=
  match updates with
  | [] => ([], st)
  | market_data :: rest =>
      let '(r, st1) := detect_signals env symbol market_data st in
      let '(rs, st2) := detect_all env symbol rest st1 in
      (r :: rs, st2)
  end.

(** ** Introspection *)

(** What [get_signal_states] reports for one state. *)
Module StateView.
Record t : Type := mk {
  is_active : bool;
  last_value : option float;
  last_check_time : float
}.
End StateView.

(** [str(n)] for an int: decimal digits, with a leading minus sign. *)
Definition py_str_int (z : Z) : string := NilZero.string_of_int (Z.to_int z).

(** The key [f"{state.signal_id}:{state.symbol}"], built from the fields of
    the state, not from the key it is stored under. *)
Definition state_label (s : SignalState.t) : string :=
  (py_str_int (SignalState.signal_id s) ++ ":" ++ SignalState.symbol s)%string.

Definition state_view (s : SignalState.t) : StateView.t :=
  StateView.mk (SignalState.is_active s) (SignalState.last_value s)
    (SignalState.last_check_time s).

(** [get_signal_states]: the dict comprehension over [signal_states.items()],
    a later item replacing an earlier one with the same label.  The store
    does not record insertion order; the items are taken in the order the
    map lists them, which matters only if two states share a label. *)
Definition get_signal_states (st : State) : gmap string StateView.t :=
  fold_left (fun m (kv : (Z * string) * SignalState.t) =>
               <[state_label kv.2 := state_view kv.2]> m)
    (map_to_list (signal_states st)) ∅.

(** ** More vocabulary *)

(** Every state is stored under the pair its own fields name. *)
Definition keys_agree (st : State) : Prop :=
  forall (k : Z * string) (s : SignalState.t),
    signal_states st !! k = Some s ->
    (SignalState.signal_id s, SignalState.symbol s) = k.

(** The signal ids collected from the cached pools that watch a symbol, as
    [detect_signals] builds them before iterating. *)
Definition candidate_ids (symbol : string) (st : State) : list Z :=
  fold_left (fun s pool => set_update s (Pool.signal_ids pool))
    (List.filter (relevant symbol) (_signal_pools_cache st)) [].

(** The same outside world with another trigger log table. *)
Definition with_sink (env : Env) (sink : TriggerRecord.t -> Result unit) : Env :=
  mkEnv (clock env) (float_of_str env) (iter_order env) (open_session env)
    (select_pools env) (select_signals env) (get_indicator_value env) sink.

(** The metric names [_get_metric_value] recognises. *)
Definition known_metrics : list string :=
  ["oi"; "funding_rate"; "oi_delta_percent"; "cvd"; "depth_ratio";
   "order_imbalance"; "taker_buy_ratio"].

(** Whether the loop of [detect_signals] evaluates an id: its definition is
    cached and enabled. *)
Definition evaluated_id (st : State) (signal_id : Z) : bool :=
  match _signals_cache st !! signal_id with
  | Some signal_def => SignalDef.enabled signal_def
  | None => false
  end.

(** Whether [_log_trigger] manages to write a record: the session opens and
    the insert succeeds. *)
Definition logged (env : Env) (r : TriggerRecord.t) : bool :=
  match open_session env with
  | Ok _ => match insert_trigger_log env r with Ok _ => true | Raise _ => false end
  | Raise _ => false
  end.

(** Two states that differ at most in the rows of the trigger log table. *)
Definition same_service (st st' : State) : Prop :=
  signal_states st = signal_states st'
  /\ _signal_pools_cache st = _signal_pools_cache st'
  /\ _signals_cache st = _signals_cache st'
  /\ _cache_time st = _cache_time st'
  /\ _cache_ttl st = _cache_ttl st'
  /\ ticks st = ticks st'.

(** The values Python compares with and subtracts from a float: floats,
    ints and bools. *)
Definition numeric (x : PyVal) : bool :=
  match x with
  | VFloat _ | VInt _ | VBool _ => true
  | _ => false
  end.

(** The payload field each embedded metric is read from. *)
Definition embedded_metrics : list (string * string) :=
  [("oi", "openInterest"); ("funding_rate", "funding")].

(** The label [get_signal_states] gives a state whose fields name a pair. *)
Definition label_of_key (k : Z * string) : string :=
  (py_str_int k.1 ++ ":" ++ k.2)%string.

(** A string without the separator of the labels. *)
Fixpoint colon_free (s : string) : bool :=
  match s with
  | EmptyString => true
  | String c s' => negb (Ascii.eqb c ":"%char) && colon_free s'
  end.

(** ** Exact order between a float and an integer *)

(** The rational number a finite float stands for: mantissa times two to
    the exponent, with the sign. *)
Definition SF_number (x : spec_float) : option Q :=
  match x with
  | S754_zero _ => Some (inject_Z 0)
  | S754_finite s m e =>
      Some (Qmult (inject_Z (if s then Z.neg m else Z.pos m)) (Qpower (inject_Z 2) e))
  | _ => None
  end.

(** How the number a float stands for compares with an integer, as
    rationals; an infinity is beyond every integer and a NaN is unordered. *)
Definition exact_order (x : float) (z : Z) : option comparison :=
  match Prim2SF x with
  | S754_nan => None
  | S754_infinity s => Some (if s then Lt else Gt)
  | y => option_map (fun q => Qcompare q (inject_Z z)) (SF_number y)
  end.

Definition exact_gt (x : float) (z : Z) : bool :=
  match exact_order x z with Some Gt => true | _ => false end.

Definition exact_ge (x : float) (z : Z) : bool :=
  match exact_order x z with Some (Gt | Eq) => true | _ => false end.

Definition exact_lt (x : float) (z : Z) : bool :=
  match exact_order x z with Some Lt => true | _ => false end.

Definition exact_le (x : float) (z : Z) : bool :=
  match exact_order x z with Some (Lt | Eq) => true | _ => false end.

(** ** Theorems *)

Section Evaluator.

Local Open Scope float_scope.

Lemma evaluate_unknown (v : float) (op : string) (t : PyVal) :
  ~ In op known_operators -> _evaluate_condition v (VStr op) t = Ok false.
Proof.
  intros Hop. unfold _evaluate_condition, py_eq_str.
  repeat match goal with
  | |- context [String.eqb op ?s] =>
      destruct (String.eqb_spec op s) as [->|_];
      [exfalso; apply Hop; simpl; tauto|]
  end.
  reflexivity.
Qed.

Lemma Qcompare_inject_Z (a b : Z) :
  Qcompare (inject_Z a) (inject_Z b) = (a ?= b)%Z.
Proof.
  unfold Qcompare. cbn. now rewrite !Z.mul_1_r.
Qed.

Lemma Qcompare_scaled (a z e : Z) :
  Qcompare (Qmult (inject_Z a) (Qpower (inject_Z 2) e)) (inject_Z z)
  = (if 0 <=? e then a * 2 ^ e ?= z else a ?= z * 2 ^ (- e))%Z.
Proof.
  destruct (Z.leb_spec 0 e) as [He|He].
  - rewrite <- Zpower_Qpower by exact He.
    rewrite <- inject_Z_mult. apply Qcompare_inject_Z.
  - destruct e as [|p|p]; try lia.
    change (- Z.neg p)%Z with (Z.pos p).
    change (Qpower (inject_Z 2) (Z.neg p))
      with (Qinv (Qpower (inject_Z 2) (Z.pos p))).
    rewrite <- Zpower_Qpower by lia.
    rewrite <- Pos2Z.inj_pow.
    unfold Qcompare. cbn. f_equal; lia.
Qed.

(** The comparison the model uses for a float against an int is the order
    of the numbers they stand for. *)
Lemma compare_Z_exact (x : float) (z : Z) : PyNum.compare_Z x z = exact_order x z.
Proof.
  unfold PyNum.compare_Z, exact_order.
  destruct (Prim2SF x) as [s|s| |s m e]; cbn [SF_number option_map]; try reflexivity.
  - now rewrite Qcompare_inject_Z.
  - now rewrite Qcompare_scaled.
Qed.

Lemma float_of_Z_raises (z : Z) (e : PyExn) :
  PyNum.float_of_Z z = Raise e -> e = OverflowError.
Proof.
  unfold PyNum.float_of_Z. destruct (is_infinity _); [|discriminate].
  now intros [= <-].
Qed.

(** Below two to the 63 the conversion of an int is the machine conversion
    of the same integer. *)
Lemma float_of_Z_machine (z : Z) :
  (0 <= z < 2 ^ 63)%Z ->
  PyNum.float_of_Z z
  = (if is_infinity (of_uint63 (Uint63.of_Z z)) then Raise OverflowError
     else Ok (of_uint63 (Uint63.of_Z z))).
Proof.
  intros Hz. unfold PyNum.float_of_Z.
  assert (Hconv : SF2Prim (binary_normalize prec emax z 0 false)
                  = of_uint63 (Uint63.of_Z z)).
  { rewrite <- (SF2Prim_Prim2SF (of_uint63 (Uint63.of_Z z))).
    rewrite of_uint63_spec, Uint63.of_Z_spec.
    rewrite Z.mod_small by exact Hz. reflexivity. }
  rewrite Hconv. reflexivity.
Qed.

(** C3, as amended.  For every float value: against a float threshold the
    ten operator spellings compute the stated float comparisons; against an
    int threshold the order and absolute-value operators compare the number
    the value stands for with the integer exactly, while [==] and [!=] first
    convert the int to a float and raise [OverflowError], the only exception
    of the conversion, when it is too large for one; a bool threshold counts
    as the int 0 or 1; every other operator string gives [false] without
    raising, whatever the threshold; and the six samples hold with float and
    with int thresholds. *)
Theorem evaluate_condition_numeric :
  (forall v t : float,
      _evaluate_condition v (VStr ">") (VFloat t) = Ok (t <? v)
      /\ _evaluate_condition v (VStr ">=") (VFloat t) = Ok (t <=? v)
      /\ _evaluate_condition v (VStr "<") (VFloat t) = Ok (v <? t)
      /\ _evaluate_condition v (VStr "<=") (VFloat t) = Ok (v <=? t)
      /\ _evaluate_condition v (VStr "==") (VFloat t) = Ok (abs (v - t) <? 1e-9)
      /\ _evaluate_condition v (VStr "!=") (VFloat t) = Ok (1e-9 <=? abs (v - t))
      /\ _evaluate_condition v (VStr "abs_greater_than") (VFloat t) = Ok (t <? abs v)
      /\ _evaluate_condition v (VStr "abs_gt") (VFloat t) = Ok (t <? abs v)
      /\ _evaluate_condition v (VStr "abs_less_than") (VFloat t) = Ok (abs v <? t)
      /\ _evaluate_condition v (VStr "abs_lt") (VFloat t) = Ok (abs v <? t))
  /\ (forall (v : float) (z : Z),
         _evaluate_condition v (VStr ">") (VInt z) = Ok (exact_gt v z)
         /\ _evaluate_condition v (VStr ">=") (VInt z) = Ok (exact_ge v z)
         /\ _evaluate_condition v (VStr "<") (VInt z) = Ok (exact_lt v z)
         /\ _evaluate_condition v (VStr "<=") (VInt z) = Ok (exact_le v z)
         /\ _evaluate_condition v (VStr "abs_greater_than") (VInt z)
            = Ok (exact_gt (abs v) z)
         /\ _evaluate_condition v (VStr "abs_gt") (VInt z) = Ok (exact_gt (abs v) z)
         /\ _evaluate_condition v (VStr "abs_less_than") (VInt z)
            = Ok (exact_lt (abs v) z)
         /\ _evaluate_condition v (VStr "abs_lt") (VInt z) = Ok (exact_lt (abs v) z)
         /\ _evaluate_condition v (VStr "==") (VInt z)
            = match PyNum.float_of_Z z with
              | Ok t => Ok (abs (v - t) <? 1e-9)
              | Raise _ => Raise OverflowError
              end
         /\ _evaluate_condition v (VStr "!=") (VInt z)
            = match PyNum.float_of_Z z with
              | Ok t => Ok (1e-9 <=? abs (v - t))
              | Raise _ => Raise OverflowError
              end)
  /\ (forall (v : float) (operator : PyVal) (b : bool),
         _evaluate_condition v operator (VBool b)
         = _evaluate_condition v operator (VInt (if b then 1 else 0)))
  /\ (forall z : Z,
         (0 <= z < 2 ^ 63)%Z ->
         PyNum.float_of_Z z
         = (if is_infinity (of_uint63 (Uint63.of_Z z)) then Raise OverflowError
            else Ok (of_uint63 (Uint63.of_Z z))))
  /\ PyNum.float_of_Z 3 = Ok 3
  /\ PyNum.float_of_Z (-1000000) = Ok (-1000000)
  /\ PyNum.float_of_Z (2 ^ 53 + 1) = Ok 9007199254740992
  /\ PyNum.float_of_Z (10 ^ 400) = Raise OverflowError
  /\ (forall (v : float) (t : PyVal) (op : string),
         ~ In op known_operators ->
         _evaluate_condition v (VStr op) t = Ok false)
  /\ _evaluate_condition 5 (VStr ">") (VFloat 3) = Ok true
  /\ _evaluate_condition 3 (VStr ">") (VFloat 3) = Ok false
  /\ _evaluate_condition 3 (VStr ">=") (VFloat 3) = Ok true
  /\ _evaluate_condition 1.0000000001 (VStr "==") (VFloat 1.0) = Ok true
  /\ _evaluate_condition (-5) (VStr "abs_gt") (VFloat 3) = Ok true
  /\ _evaluate_condition 2 (VStr "abs_lt") (VFloat 3) = Ok true
  /\ _evaluate_condition 5 (VStr ">") (VInt 3) = Ok true
  /\ _evaluate_condition 3 (VStr ">") (VInt 3) = Ok false
  /\ _evaluate_condition 3 (VStr ">=") (VInt 3) = Ok true
  /\ _evaluate_condition 1.0000000001 (VStr "==") (VInt 1) = Ok true
  /\ _evaluate_condition (-5) (VStr "abs_gt") (VInt 3) = Ok true
  /\ _evaluate_condition 2 (VStr "abs_lt") (VInt 3) = Ok true
  /\ _evaluate_condition 9007199254740992 (VStr "<") (VInt (2 ^ 53 + 1)) = Ok true
  /\ _evaluate_condition 9007199254740992 (VStr "<") (VFloat 9007199254740993)
     = Ok false.
Proof.
  split; [intros v t; repeat split; reflexivity|].
  split.
  { intros v z.
    assert (Hgt : forall x : float,
               PyNum.is_gt (PyNum.compare_Z x z) = exact_gt x z)
      by (intros x; unfold exact_gt; now rewrite <- compare_Z_exact).
    assert (Hlt : forall x : float,
               PyNum.is_lt (PyNum.compare_Z x z) = exact_lt x z)
      by (intros x; unfold exact_lt; now rewrite <- compare_Z_exact).
    assert (Hge : PyNum.is_ge (PyNum.compare_Z v z) = exact_ge v z)
      by (unfold exact_ge; now rewrite <- compare_Z_exact).
    assert (Hle : PyNum.is_le (PyNum.compare_Z v z) = exact_le v z)
      by (unfold exact_le; now rewrite <- compare_Z_exact).
    rewrite <- !Hgt, <- !Hlt, <- Hge, <- Hle.
    repeat split; try reflexivity.
    - change (_evaluate_condition v (VStr "==") (VInt z))
        with (rbind (rbind (PyNum.float_of_Z z) (fun t => Ok (v - t)))
                (fun d => Ok (abs d <? tolerance))).
      destruct (PyNum.float_of_Z z) as [t|e] eqn:Hz; [reflexivity|].
      now rewrite (float_of_Z_raises z e Hz).
    - change (_evaluate_condition v (VStr "!=") (VInt z))
        with (rbind (rbind (PyNum.float_of_Z z) (fun t => Ok (v - t)))
                (fun d => Ok (tolerance <=? abs d))).
      destruct (PyNum.float_of_Z z) as [t|e] eqn:Hz; [reflexivity|].
      now rewrite (float_of_Z_raises z e Hz). }
  split; [intros v operator b; reflexivity|].
  split; [exact float_of_Z_machine|].
  do 4 (split; [vm_compute; reflexivity|]).
  split; [intros v t op Hop; now apply evaluate_unknown|].
  repeat split; vm_compute; reflexivity.
Qed.

(** C3 as first worded fails at an int threshold beyond the range of
    floats: there [==] raises instead of answering whether the difference is
    below the tolerance. *)
Lemma evaluate_condition_overflow :
  _evaluate_condition 1 (VStr "==") (VInt (10 ^ 400)) = Raise OverflowError
  /\ ~ (exists b : bool,
         _evaluate_condition 1 (VStr "==") (VInt (10 ^ 400)) = Ok b).
Proof.
  assert (H : _evaluate_condition 1 (VStr "==") (VInt (10 ^ 400))
              = Raise OverflowError) by (vm_compute; reflexivity).
  split; [exact H|]. intros [b Hb]. rewrite H in Hb. discriminate Hb.
Qed.

Lemma evaluate_condition_numeric_witness :
  (~ In "between"%string known_operators
   /\ _evaluate_condition 7 (VStr "between") (VStr "3") = Ok false)
  /\ ((0 <= 1000000 < 2 ^ 63)%Z
      /\ PyNum.float_of_Z 1000000
         = (if is_infinity (of_uint63 (Uint63.of_Z 1000000)) then Raise OverflowError
            else Ok (of_uint63 (Uint63.of_Z 1000000)))).
Proof.
  destruct evaluate_condition_numeric
    as (_ & _ & _ & Hmachine & _ & _ & _ & _ & Hunknown & _).
  assert (Hop : ~ In "between"%string known_operators).
  { simpl. intros H. repeat destruct H as [H|H]; try discriminate H; exact H. }
  assert (Hz : (0 <= 1000000 < 2 ^ 63)%Z) by (split; [lia|reflexivity]).
  split; split.
  - exact Hop.
  - exact (Hunknown 7 (VStr "3") "between"%string Hop).
  - exact Hz.
  - exact (Hmachine 1000000%Z Hz).
Defined.

End Evaluator.

Section Bucketer.

Ltac bucket_cases w :=
  unfold _time_window_to_period, PyNum.le_int; simpl;
  repeat match goal with
  | |- context [w <=? ?k] => destruct (Z.leb_spec w k); try lia; simpl
  end;
  try reflexivity.

(** C4. The period bucketer maps a number of seconds to the label of the
    first bucket whose inclusive upper bound it does not exceed (60, 180, 300,
    900, 1800, 3600, 7200 seconds, then "4h"), returns a string unchanged,
    and gives the four listed boundary results. *)
Theorem time_window_to_period_buckets :
  (forall w : Z,
      (w <= 60 -> _time_window_to_period (VInt w) = Ok "1m")
      /\ (60 < w <= 180 -> _time_window_to_period (VInt w) = Ok "3m")
      /\ (180 < w <= 300 -> _time_window_to_period (VInt w) = Ok "5m")
      /\ (300 < w <= 900 -> _time_window_to_period (VInt w) = Ok "15m")
      /\ (900 < w <= 1800 -> _time_window_to_period (VInt w) = Ok "30m")
      /\ (1800 < w <= 3600 -> _time_window_to_period (VInt w) = Ok "1h")
      /\ (3600 < w <= 7200 -> _time_window_to_period (VInt w) = Ok "2h")
      /\ (7200 < w -> _time_window_to_period (VInt w) = Ok "4h"))
  /\ (forall s : string, _time_window_to_period (VStr s) = Ok s)
  /\ _time_window_to_period (VInt 60) = Ok "1m"
  /\ _time_window_to_period (VInt 61) = Ok "3m"
  /\ _time_window_to_period (VInt 7200) = Ok "2h"
  /\ _time_window_to_period (VInt 7201) = Ok "4h".
Proof.
  split.
  - intros w. repeat split; intros Hw; bucket_cases w.
  - split; [reflexivity|]. repeat split; reflexivity.
Qed.

Lemma time_window_to_period_buckets_witness :
  180 < 200 <= 300 /\ _time_window_to_period (VInt 200) = Ok "5m".
Proof.
  split; [lia|].
  apply (proj1 time_window_to_period_buckets 200). lia.
Defined.

End Bucketer.

Section EdgeTrigger.

Lemma log_trigger_signal_states (env : Env) (r : TriggerRecord.t) (st : State) :
  signal_states (_log_trigger env r st) = signal_states st.
Proof.
  unfold _log_trigger.
  destruct (open_session env); [|reflexivity].
  destruct (insert_trigger_log env r); reflexivity.
Qed.

Lemma log_trigger_caches (env : Env) (r : TriggerRecord.t) (st : State) :
  _signal_pools_cache (_log_trigger env r st) = _signal_pools_cache st
  /\ _signals_cache (_log_trigger env r st) = _signals_cache st
  /\ _cache_time (_log_trigger env r st) = _cache_time st
  /\ _cache_ttl (_log_trigger env r st) = _cache_ttl st
  /\ ticks (_log_trigger env r st) = ticks st.
Proof.
  unfold _log_trigger.
  destruct (open_session env); [|repeat split].
  destruct (insert_trigger_log env r); repeat split.
Qed.

(** What [check_condition] does once the operator evaluator has returned
    [c]: the record it hands back and the entry it stores. *)
Lemma check_condition_reached (env : Env) (signal_id : Z) (signal_def : SignalDef.t)
  (symbol : string) (metric operator threshold : PyVal) (v : float) (st : State)
  (c : bool) :
  _evaluate_condition v operator threshold = Ok c ->
  let out := check_condition env signal_id signal_def symbol metric operator threshold v st in
  let old := state_of st signal_id symbol in
  out.1 =
    Ok (if c && negb (stored_flag st signal_id symbol)
        then Some (TriggerRecord.mk signal_id (SignalDef.signal_name signal_def) symbol
                     v threshold operator metric (clock env (S (ticks st)))
                     (SignalDef.description signal_def))
        else None)
  /\ signal_states out.2 =
       <[(signal_id, symbol) :=
           SignalState.mk (SignalState.signal_id old) (SignalState.symbol old) c
             (Some v) (clock env (ticks st))]> (signal_states st)
  /\ _signal_pools_cache out.2 = _signal_pools_cache st
  /\ _signals_cache out.2 = _signals_cache st
  /\ _cache_time out.2 = _cache_time st
  /\ _cache_ttl out.2 = _cache_ttl st
  /\ ticks out.2
     = if c && negb (stored_flag st signal_id symbol)
       then S (S (ticks st)) else S (ticks st).
Proof.
  intros Hc. unfold check_condition, stored_flag. rewrite Hc. cbn zeta.
  unfold time_time. cbn [ticks signal_states set_signal_states].
  destruct (c && negb (SignalState.is_active (state_of st signal_id symbol))).
  - cbn [fst snd]. rewrite log_trigger_signal_states.
    match goal with
    | |- context [_log_trigger env ?r ?s] =>
        destruct (log_trigger_caches env r s) as (-> & -> & -> & -> & ->)
    end.
    repeat split.
  - repeat split.
Qed.

Lemma stored_flag_insert (st st' : State) (signal_id : Z) (symbol : string)
  (s : SignalState.t) :
  signal_states st' = <[(signal_id, symbol) := s]> (signal_states st) ->
  stored_flag st' signal_id symbol = SignalState.is_active s.
Proof.
  intros H. unfold stored_flag, state_of. rewrite H, lookup_insert_eq. reflexivity.
Qed.

(** One evaluation with a defined outcome: a record comes back exactly on a
    rising edge, and the flag left behind is the outcome. *)
Lemma check_signal_trigger_step (env : Env) (signal_id : Z) (signal_def : SignalDef.t)
  (symbol : string) (market_data : PyDict) (st : State) (c : bool) :
  condition_outcome env signal_def symbol market_data = Some c ->
  let out := _check_signal_trigger env signal_id signal_def symbol market_data st in
  produced out.1 = c && negb (stored_flag st signal_id symbol)
  /\ stored_flag out.2 signal_id symbol = c.
Proof.
  unfold condition_outcome, _check_signal_trigger.
  destruct (read_condition env signal_def symbol market_data)
    as [[[[[metric operator] threshold] v]|]|e]; try discriminate.
  destruct (_evaluate_condition v operator threshold) as [c'|e] eqn:Hc; try discriminate.
  intros [= ->].
  destruct (check_condition_reached env signal_id signal_def symbol metric operator
              threshold v st c Hc) as (Hr & Hs & _).
  cbn zeta. split.
  - rewrite Hr. unfold produced.
    destruct (c && negb (stored_flag st signal_id symbol)); reflexivity.
  - erewrite stored_flag_insert by exact Hs. reflexivity.
Qed.

Lemma evaluate_pair_edges (signal_id : Z) (symbol : string) (evs : list Evaluation)
  (cs : list bool) :
  Forall2 (fun ev c => has_outcome symbol c ev) evs cs ->
  forall st : State,
    map produced (evaluate_pair signal_id symbol evs st).1
    = rising_edges (stored_flag st signal_id symbol) cs.
Proof.
  induction 1 as [|ev c evs cs Hev _ IH]; intros st; [reflexivity|].
  cbn [evaluate_pair rising_edges].
  pose proof (check_signal_trigger_step (ev_env ev) signal_id (ev_def ev) symbol
                (ev_data ev) st c Hev) as [Hp Hf].
  cbn zeta in Hp, Hf.
  destruct (_check_signal_trigger (ev_env ev) signal_id (ev_def ev) symbol (ev_data ev) st)
    as [r st1].
  cbn [fst snd] in Hp, Hf.
  specialize (IH st1).
  destruct (evaluate_pair signal_id symbol evs st1) as [rs st2].
  cbn [fst snd map] in *. rewrite Hp, IH, Hf. reflexivity.
Qed.

Lemma rising_edges_block (a x : bool) (n : nat) (ys : list bool) :
  rising_edges a (repeat x (S n) ++ ys)
  = rising_edges a (repeat x (S n)) ++ rising_edges x ys.
Proof.
  revert a. induction n as [|n IH]; intros a; [reflexivity|].
  change (repeat x (S (S n))) with (x :: repeat x (S n)).
  cbn [app rising_edges]. rewrite IH. reflexivity.
Qed.

Lemma rising_edges_held (a : bool) (n : nat) :
  rising_edges a (repeat true (S n)) = negb a :: repeat false n.
Proof.
  cbn [repeat rising_edges]. f_equal.
  induction n as [|n IH]; [reflexivity|].
  cbn [repeat rising_edges]. rewrite IH at 1. reflexivity.
Qed.

Lemma rising_edges_low (a : bool) (n : nat) :
  rising_edges a (repeat false n) = repeat false n.
Proof.
  revert a. induction n as [|n IH]; intros a; [reflexivity|].
  cbn [repeat rising_edges]. rewrite IH. reflexivity.
Qed.

(** Evaluating one pair never touches the entry of another. *)
Lemma check_signal_trigger_other_pair (env : Env) (signal_id : Z)
  (signal_def : SignalDef.t) (symbol : string) (market_data : PyDict) (st : State)
  (k : Z * string) :
  k <> (signal_id, symbol) ->
  signal_states (_check_signal_trigger env signal_id signal_def symbol market_data st).2
    !! k = signal_states st !! k.
Proof.
  intros Hk. unfold _check_signal_trigger.
  destruct (read_condition env signal_def symbol market_data)
    as [[[[[metric operator] threshold] v]|]|e]; try reflexivity.
  destruct (_evaluate_condition v operator threshold) as [c|e] eqn:Hc.
  - destruct (check_condition_reached env signal_id signal_def symbol metric operator
                threshold v st c Hc) as (_ & Hs & _).
    cbn zeta in Hs. rewrite Hs. now apply lookup_insert_ne.
  - unfold check_condition. rewrite Hc. reflexivity.
Qed.

(** A candidate whose evaluation returns nothing does not disturb the rest
    of the loop. *)
Lemma check_signals_skip (env : Env) (signal_id : Z) (signal_def : SignalDef.t)
  (ids : list Z) (symbol : string) (market_data : PyDict)
  (acc : list TriggerRecord.t) (st : State) :
  _signals_cache st !! signal_id = Some signal_def ->
  _check_signal_trigger env signal_id signal_def symbol market_data st = (Ok None, st) ->
  check_signals env (signal_id :: ids) symbol market_data acc st
  = check_signals env ids symbol market_data acc st.
Proof.
  intros Hdef Hskip. cbn [check_signals]. rewrite Hdef, Hskip.
  destruct (negb (SignalDef.enabled signal_def)); reflexivity.
Qed.

Lemma outcomes_of_forall (symbol : string) (c : bool) (evs : list Evaluation) :
  Forall (has_outcome symbol c) evs ->
  Forall2 (fun ev c' => has_outcome symbol c' ev) evs (repeat c (length evs)).
Proof.
  induction 1 as [|ev evs Hev _ IH]; cbn [length repeat]; constructor; assumption.
Qed.

(** C1. For a fixed pair, an evaluation whose condition outcome is defined
    hands back a trigger record exactly when the outcome is true and the
    stored flag was false; over a run of such evaluations the records come
    at the rising edges of the outcome sequence, so a condition that stays
    true gives one record at the first evaluation only, and after a stretch
    of false outcomes the next true outcome gives exactly one new record. *)
Theorem edge_trigger_law (signal_id : Z) (symbol : string) :
  (forall (env : Env) (signal_def : SignalDef.t) (market_data : PyDict)
          (st : State) (c : bool),
      condition_outcome env signal_def symbol market_data = Some c ->
      produced (_check_signal_trigger env signal_id signal_def symbol market_data st).1 = true
      <-> c = true /\ stored_flag st signal_id symbol = false)
  /\ (forall (evs : list Evaluation) (cs : list bool) (st : State),
         Forall2 (fun ev c => has_outcome symbol c ev) evs cs ->
         map produced (evaluate_pair signal_id symbol evs st).1
         = rising_edges (stored_flag st signal_id symbol) cs)
  /\ (forall (first : Evaluation) (held : list Evaluation) (st : State),
         Forall (has_outcome symbol true) (first :: held) ->
         stored_flag st signal_id symbol = false ->
         map produced (evaluate_pair signal_id symbol (first :: held) st).1
         = true :: repeat false (length held))
  /\ (forall (drop : Evaluation) (low : list Evaluation)
             (rise : Evaluation) (held : list Evaluation) (st : State),
         Forall (has_outcome symbol false) (drop :: low) ->
         Forall (has_outcome symbol true) (rise :: held) ->
         map produced
           (evaluate_pair signal_id symbol ((drop :: low) ++ rise :: held) st).1
         = repeat false (S (length low)) ++ true :: repeat false (length held)).
Proof.
  split; [|split; [|split]].
  - intros env signal_def market_data st c Hc.
    destruct (check_signal_trigger_step env signal_id signal_def symbol market_data
                st c Hc) as [Hp _].
    cbn zeta in Hp. rewrite Hp.
    destruct c, (stored_flag st signal_id symbol); cbn; intuition congruence.
  - intros evs cs st H. now apply evaluate_pair_edges.
  - intros first held st Hall Hflag.
    rewrite (evaluate_pair_edges signal_id symbol _ _ (outcomes_of_forall _ _ _ Hall)).
    rewrite Hflag. cbn [length]. now rewrite rising_edges_held.
  - intros drop low rise held st Hlow Hhigh.
    pose proof (outcomes_of_forall _ _ _ Hlow) as H1.
    pose proof (outcomes_of_forall _ _ _ Hhigh) as H2.
    rewrite (evaluate_pair_edges signal_id symbol _ _ (Forall2_app H1 H2)).
    cbn [length]. rewrite rising_edges_block, rising_edges_low, rising_edges_held.
    reflexivity.
Qed.

Lemma edge_trigger_law_witness :
  Forall (has_outcome "BTC" false) [Scenario.evaluation 900000]
  /\ Forall (has_outcome "BTC" true)
       [Scenario.evaluation 1100000; Scenario.evaluation 1200000]
  /\ map produced
       (evaluate_pair 1 "BTC"
          ([Scenario.evaluation 900000]
           ++ [Scenario.evaluation 1100000; Scenario.evaluation 1200000])
          (__init__ 0 [])).1
     = [false; true; false].
Proof.
  assert (Hlow : Forall (has_outcome "BTC" false) [Scenario.evaluation 900000]).
  { repeat constructor; vm_compute; reflexivity. }
  assert (Hhigh : Forall (has_outcome "BTC" true)
                    [Scenario.evaluation 1100000; Scenario.evaluation 1200000]).
  { repeat constructor; vm_compute; reflexivity. }
  split; [exact Hlow|]. split; [exact Hhigh|].
  exact (proj2 (proj2 (proj2 (edge_trigger_law 1 "BTC"))) _ _ _ _ (__init__ 0 [])
           Hlow Hhigh).
Defined.

End EdgeTrigger.

Section StateStore.

(** C6. When an evaluation reaches the condition check, the entry stored
    for the pair afterwards has [is_active] equal to the condition outcome,
    [last_value] equal to the resolved metric value and [last_check_time]
    equal to the clock reading taken at the update, whatever the flag was
    before and so whether or not a trigger fired. *)
Theorem state_after_evaluation (env : Env) (signal_id : Z) (signal_def : SignalDef.t)
  (symbol : string) (market_data : PyDict) (st : State)
  (metric operator threshold : PyVal) (v : float) (c : bool) :
  read_condition env signal_def symbol market_data
  = Ok (Some (metric, operator, threshold, v)) ->
  _evaluate_condition v operator threshold = Ok c ->
  exists s : SignalState.t,
    signal_states (_check_signal_trigger env signal_id signal_def symbol market_data st).2
      !! (signal_id, symbol) = Some s
    /\ SignalState.is_active s = c
    /\ SignalState.last_value s = Some v
    /\ SignalState.last_check_time s = clock env (ticks st).
Proof.
  intros Hread Hc. unfold _check_signal_trigger. rewrite Hread.
  destruct (check_condition_reached env signal_id signal_def symbol metric operator
              threshold v st c Hc) as (_ & Hs & _).
  cbn zeta in Hs. rewrite Hs, lookup_insert_eq.
  eexists. split; [reflexivity|]. repeat split.
Qed.

Lemma state_after_evaluation_witness :
  exists s : SignalState.t,
    signal_states
      (_check_signal_trigger Scenario.env 1 Scenario.S1 "BTC" (Scenario.update 900000)
         (__init__ 0 [])).2 !! (1, "BTC") = Some s
    /\ SignalState.is_active s = false
    /\ SignalState.last_value s = Some 900000%float
    /\ SignalState.last_check_time s = clock Scenario.env 0.
Proof.
  apply (state_after_evaluation Scenario.env 1 Scenario.S1 "BTC"
           (Scenario.update 900000) (__init__ 0 [])
           (VStr "oi") (VStr ">") (VInt 1000000) 900000%float false).
  - vm_compute. reflexivity.
  - vm_compute. reflexivity.
Defined.

(** C7. A signal whose condition lacks the metric, the operator or the
    threshold, or whose metric value resolves to nothing, yields no trigger
    record and leaves the whole service state, the edge-state store
    included, exactly as it was. *)
Theorem skipped_signal_leaves_state (env : Env) (signal_id : Z)
  (signal_def : SignalDef.t) (symbol : string) (market_data : PyDict) (st : State)
  (condition : PyDict) :
  SignalDef.trigger_condition signal_def = VDict condition ->
  dict_get condition "metric" = None
  \/ dict_get condition "operator" = None
  \/ dict_get condition "threshold" = None
  \/ _get_metric_value env (dict_get_none condition "metric") symbol market_data
       (dict_get_default condition "time_window" (VInt 60)) = None ->
  _check_signal_trigger env signal_id signal_def symbol market_data st = (Ok None, st).
Proof.
  intros Hcond Hskip. unfold _check_signal_trigger, read_condition. rewrite Hcond.
  unfold dict_get_none in *.
  destruct Hskip as [H|[H|[H|H]]].
  - rewrite H. reflexivity.
  - rewrite H. cbn. rewrite andb_false_r. reflexivity.
  - rewrite H. cbn. rewrite andb_false_r. reflexivity.
  - cbn zeta. rewrite H.
    match goal with |- context [if ?b then _ else _] => destruct b end; reflexivity.
Qed.

Lemma skipped_signal_leaves_state_witness :
  _check_signal_trigger Scenario.env 1
    (SignalDef.mk 1 (VStr "A") VNone
       (VDict [("metric", VStr "oi"); ("operator", VStr ">")]) true)
    "BTC" (Scenario.update 1100000) (__init__ 0 [])
  = (Ok None, __init__ 0 []).
Proof.
  apply (skipped_signal_leaves_state Scenario.env 1 _ "BTC" (Scenario.update 1100000)
           (__init__ 0 []) [("metric", VStr "oi"); ("operator", VStr ">")]).
  - reflexivity.
  - right. right. left. reflexivity.
Defined.

End StateStore.

Section ZeroThreshold.

Lemma float_of_zero : PyNum.float_of_Z 0 = Ok 0%float.
Proof. vm_compute. reflexivity. Qed.

(** With a threshold that is the number zero the operator evaluator always
    returns. *)
Lemma evaluate_zero_returns (v : float) (operator zero : PyVal) :
  zero = VInt 0 \/ zero = VFloat 0%float ->
  exists c : bool, _evaluate_condition v operator zero = Ok c.
Proof.
  intros [-> | ->]; unfold _evaluate_condition;
    repeat match goal with
    | |- context [if ?b then _ else _] => destruct b
    end;
    cbn [PyNum.gt PyNum.ge PyNum.lt PyNum.le PyNum.sub];
    rewrite ?float_of_zero; cbn [rbind]; eexists; reflexivity.
Qed.

(** C10. A condition whose metric and operator are present and non-empty and
    whose threshold is the number zero passes the required-field check: the
    metric is resolved, and once it resolves the operator is applied against
    zero, the edge state is updated with the outcome and a record is handed
    back exactly on a rising edge. *)
Theorem zero_threshold_is_evaluated (env : Env) (signal_id : Z)
  (signal_def : SignalDef.t) (symbol : string) (market_data : PyDict) (st : State)
  (condition : PyDict) (zero : PyVal) :
  SignalDef.trigger_condition signal_def = VDict condition ->
  truthy (dict_get_none condition "metric") = true ->
  truthy (dict_get_none condition "operator") = true ->
  dict_get condition "threshold" = Some zero ->
  zero = VInt 0 \/ zero = VFloat 0%float ->
  let metric := dict_get_none condition "metric" in
  let operator := dict_get_none condition "operator" in
  let resolved :=
    _get_metric_value env metric symbol market_data
      (dict_get_default condition "time_window" (VInt 60)) in
  read_condition env signal_def symbol market_data
  = Ok (match resolved with
        | Some v => Some (metric, operator, zero, v)
        | None => None
        end)
  /\ forall v : float,
       resolved = Some v ->
       exists c : bool,
         _evaluate_condition v operator zero = Ok c
         /\ let out :=
              _check_signal_trigger env signal_id signal_def symbol market_data st in
            produced out.1 = c && negb (stored_flag st signal_id symbol)
            /\ exists s : SignalState.t,
                 signal_states out.2 !! (signal_id, symbol) = Some s
                 /\ SignalState.is_active s = c
                 /\ SignalState.last_value s = Some v.
Proof.
  intros Hcond Hm Ho Ht Hz metric operator resolved.
  assert (Hread : read_condition env signal_def symbol market_data
                  = Ok (match resolved with
                        | Some v => Some (metric, operator, zero, v)
                        | None => None
                        end)).
  { unfold read_condition. rewrite Hcond. cbn zeta.
    replace (dict_get_none condition "threshold") with zero
      by (unfold dict_get_none; now rewrite Ht).
    fold metric operator resolved. unfold metric at 1, operator at 1.
    rewrite Hm, Ho.
    replace (is_none zero) with false by (destruct Hz as [-> | ->]; reflexivity).
    cbn [andb negb]. destruct resolved; reflexivity. }
  split; [exact Hread|].
  intros v Hv. rewrite Hv in Hread.
  destruct (evaluate_zero_returns v operator zero Hz) as [c Hc].
  exists c. split; [exact Hc|]. cbn zeta.
  split.
  - apply check_signal_trigger_step. unfold condition_outcome.
    rewrite Hread, Hc. reflexivity.
  - unfold _check_signal_trigger. rewrite Hread.
    destruct (check_condition_reached env signal_id signal_def symbol metric operator
                zero v st c Hc) as (_ & Hs & _).
    cbn zeta in Hs. rewrite Hs, lookup_insert_eq.
    eexists. split; [reflexivity|]. split; reflexivity.
Qed.

Lemma zero_threshold_is_evaluated_witness :
  exists c : bool,
    _evaluate_condition 5%float (VStr "<=") (VInt 0) = Ok c
    /\ let out :=
         _check_signal_trigger Scenario.env 1
           (SignalDef.mk 1 (VStr "Z") VNone
              (VDict [("metric", VStr "oi"); ("operator", VStr "<=");
                      ("threshold", VInt 0)]) true)
           "BTC" (Scenario.update 5) (__init__ 0 []) in
       produced out.1 = c && negb (stored_flag (__init__ 0 []) 1 "BTC")
       /\ exists s : SignalState.t,
            signal_states out.2 !! (1, "BTC") = Some s
            /\ SignalState.is_active s = c
            /\ SignalState.last_value s = Some 5%float.
Proof.
  refine (proj2 (zero_threshold_is_evaluated Scenario.env 1 _ "BTC" (Scenario.update 5)
                   (__init__ 0 [])
                   [("metric", VStr "oi"); ("operator", VStr "<="); ("threshold", VInt 0)]
                   (VInt 0) _ _ _ _ _) 5%float _).
  - reflexivity.
  - reflexivity.
  - reflexivity.
  - reflexivity.
  - left. reflexivity.
  - vm_compute. reflexivity.
Defined.

End ZeroThreshold.

Section EndToEnd.

Variable env : Env.
Hypothesis session_up : open_session env = Ok tt.
Hypothesis pools_stored : select_pools env = Ok [Scenario.P].
Hypothesis signals_stored : select_signals env = Ok [Scenario.S1].
Hypothesis one_id : iter_order env [1] = [1].

(** With this configuration behind it, a refresh leaves P and S1 in the
    caches whenever it runs, and so does skipping it once they are there. *)
Lemma refresh_keeps_loaded (st : State) :
  cache_expired (clock env (ticks st)) st = true \/ Scenario.loaded st ->
  Scenario.loaded (_refresh_cache_if_needed env st)
  /\ signal_states (_refresh_cache_if_needed env st) = signal_states st
  /\ ticks (_refresh_cache_if_needed env st) = S (ticks st).
Proof.
  intros H. unfold _refresh_cache_if_needed, time_time, cache_expired in *.
  cbn [_cache_time _cache_ttl].
  destruct (negb _) eqn:Hexp.
  - unfold load_caches. rewrite session_up, pools_stored, signals_stored.
    repeat split.
  - destruct H as [H | H]; [discriminate H|]. destruct H as [Hp Hs].
    repeat split; assumption.
Qed.

Lemma detect_loaded (market_data : PyDict) (st : State) :
  Scenario.loaded (_refresh_cache_if_needed env st) ->
  detect_signals env "BTC" market_data st
  = match _check_signal_trigger env 1 Scenario.S1 "BTC" market_data
            (_refresh_cache_if_needed env st) with
    | (Ok (Some trigger_result), st') => ([trigger_result], st')
    | (_, st') => ([], st')
    end.
Proof.
  intros [Hp Hs]. unfold detect_signals. cbn zeta. rewrite Hp.
  cbn [List.filter pool_of_row relevant Scenario.P PoolRow.enabled PoolRow.symbols
       PoolRow.signal_ids PoolRow.id PoolRow.pool_name Pool.enabled Pool.symbols
       Pool.signal_ids existsb String.eqb Ascii.eqb Bool.eqb andb orb fold_left].
  change (set_update [] [1]) with [1]. rewrite one_id.
  cbn [check_signals]. rewrite Hs.
  change (signals_of_rows [Scenario.S1] !! 1) with (Some Scenario.S1).
  cbn [SignalDef.enabled Scenario.S1 negb].
  destruct (_check_signal_trigger env 1 Scenario.S1 "BTC" market_data
              (_refresh_cache_if_needed env st)) as [[[t|]|e] st']; reflexivity.
Qed.

(** One call of the scenario: the answer depends on the condition outcome
    and the stored flag only. *)
Lemma scenario_step (oi : Z) (v : float) (c : bool) (st : State) :
  cache_expired (clock env (ticks st)) st = true \/ Scenario.loaded st ->
  read_condition env Scenario.S1 "BTC" (Scenario.update oi)
  = Ok (Some (VStr "oi", VStr ">", VInt 1000000, v)) ->
  _evaluate_condition v (VStr ">") (VInt 1000000) = Ok c ->
  let out := detect_signals env "BTC" (Scenario.update oi) st in
  let fire := c && negb (stored_flag st 1 "BTC") in
  out.1 = (if fire then [Scenario.record v (clock env (S (S (ticks st))))] else [])
  /\ stored_flag out.2 1 "BTC" = c
  /\ Scenario.loaded out.2
  /\ ticks out.2 = if fire then S (S (S (ticks st))) else S (S (ticks st)).
Proof.
  intros Hst Hread Hc.
  destruct (refresh_keeps_loaded st Hst) as (Hl & Hs & Ht).
  cbn zeta. rewrite (detect_loaded _ _ Hl).
  unfold _check_signal_trigger. rewrite Hread.
  destruct (check_condition_reached env 1 Scenario.S1 "BTC" (VStr "oi") (VStr ">")
              (VInt 1000000) v (_refresh_cache_if_needed env st) c Hc)
    as (Hr & Hm & Hpc & Hsc & _ & _ & Htk).
  cbn zeta in Hr, Hm, Hpc, Hsc, Htk.
  assert (Hflag : stored_flag (_refresh_cache_if_needed env st) 1 "BTC"
                  = stored_flag st 1 "BTC").
  { unfold stored_flag, state_of. now rewrite Hs. }
  rewrite Hflag, Ht in *.
  destruct (check_condition env 1 Scenario.S1 "BTC" (VStr "oi") (VStr ">")
              (VInt 1000000) v (_refresh_cache_if_needed env st)) as [r st'].
  cbn [fst snd] in *. subst r.
  assert (Hf' : stored_flag st' 1 "BTC" = c).
  { erewrite stored_flag_insert by exact Hm. reflexivity. }
  assert (Hl' : Scenario.loaded st').
  { destruct Hl as [Hl1 Hl2]. split; congruence. }
  destruct (c && negb (stored_flag st 1 "BTC")); cbn [fst snd]; auto.
Qed.

Ltac scenario_call oi v c st st' R F L T :=
  let H := fresh "H" in
  let r := fresh "r" in
  pose proof (scenario_step oi v c st) as H;
  cbn zeta in H;
  destruct (detect_signals env "BTC" (Scenario.update oi) st) as [r st'];
  cbn [fst snd] in H;
  destruct H as (R & F & L & T);
  [ | vm_compute; reflexivity | vm_compute; reflexivity | ].

(** C2. With pool P and signal S1 in the configuration store, five calls of
    [detectSignals] for BTC on open interest 900000, 1100000, 1100000, 900000
    and 1200000 hand back nothing, one record for S1 with trigger value
    1100000, nothing, nothing (the pair's flag being false after the fourth
    call), and one new record for S1. *)
Theorem end_to_end_scenario :
  cache_expired (clock env 0) (__init__ 0 []) = true ->
  (detect_all env "BTC"
     (map Scenario.update [900000; 1100000; 1100000; 900000; 1200000])
     (__init__ 0 [])).1
  = [[]; [Scenario.record 1100000%float (clock env 4)]; []; [];
     [Scenario.record 1200000%float (clock env 11)]]
  /\ stored_flag
       (detect_all env "BTC" (map Scenario.update [900000; 1100000; 1100000; 900000])
          (__init__ 0 [])).2 1 "BTC" = false.
Proof.
  intros Hexp. cbn [map detect_all].
  scenario_call 900000 900000%float false (__init__ 0 []) st1 R1 F1 L1 T1;
    [left; exact Hexp|].
  scenario_call 1100000 1100000%float true st1 st2 R2 F2 L2 T2; [right; exact L1|].
  rewrite F1, T1 in R2, T2. cbn in R2, T2.
  scenario_call 1100000 1100000%float true st2 st3 R3 F3 L3 T3; [right; exact L2|].
  rewrite F2, T2 in R3, T3. cbn in R3, T3.
  scenario_call 900000 900000%float false st3 st4 R4 F4 L4 T4; [right; exact L3|].
  rewrite T3 in R4, T4. cbn in R4, T4.
  scenario_call 1200000 1200000%float true st4 st5 R5 F5 L5 T5; [right; exact L4|].
  rewrite F4, T4 in R5, T5. cbn in R5, T5.
  cbn [fst snd]. cbn in R1. subst. split; [reflexivity | exact F4].
Qed.

End EndToEnd.

Lemma end_to_end_scenario_witness :
  (detect_all Scenario.env "BTC"
     (map Scenario.update [900000; 1100000; 1100000; 900000; 1200000])
     (__init__ 0 [])).1
  = [[]; [Scenario.record 1100000%float (clock Scenario.env 4)]; []; [];
     [Scenario.record 1200000%float (clock Scenario.env 11)]]
  /\ stored_flag
       (detect_all Scenario.env "BTC"
          (map Scenario.update [900000; 1100000; 1100000; 900000]) (__init__ 0 [])).2
       1 "BTC" = false.
Proof.
  apply (end_to_end_scenario Scenario.env).
  - reflexivity.
  - reflexivity.
  - reflexivity.
  - reflexivity.
  - vm_compute. reflexivity.
Defined.

Section MetricResolver.

Variable env : Env.

(** What holds of the two embedded metrics: a truthy field that [float]
    accepts is returned coerced. *)
Lemma embedded_metric_present (field : string) (symbol : string)
  (market_data ctx : PyDict) (x : PyVal) (f : float) :
  dict_get market_data "asset_ctx" = Some (VDict ctx) ->
  dict_get ctx field = Some x ->
  truthy x = true ->
  py_float env x = Ok f ->
  get_asset_field env field market_data = Ok (Some f).
Proof.
  intros Hctx Hx Ht Hf. unfold get_asset_field, dict_get_default.
  rewrite Hctx. cbn [py_get rbind]. unfold dict_get_default.
  rewrite Hx, Ht, Hf. reflexivity.
Qed.

(** An absent field, or one that [float] rejects, resolves to nothing and
    nothing is raised. *)
Lemma embedded_metric_absent (metric field : string) (symbol : string)
  (market_data ctx : PyDict) (time_window : PyVal) :
  (metric = "oi" /\ field = "openInterest")
  \/ (metric = "funding_rate" /\ field = "funding") ->
  dict_get market_data "asset_ctx" = Some (VDict ctx) ->
  dict_get ctx field = None
  \/ (exists x e, dict_get ctx field = Some x /\ py_float env x = Raise e) ->
  _get_metric_value env (VStr metric) symbol market_data time_window = None.
Proof.
  intros Hm Hctx Hx.
  assert (H : exists r, get_asset_field env field market_data = r
                        /\ match r with Ok (Some _) => False | _ => True end).
  { unfold get_asset_field, dict_get_default. rewrite Hctx. cbn [py_get rbind].
    unfold dict_get_default.
    destruct Hx as [-> | (x & e & -> & Hf)]; [eexists; split; [reflexivity|exact I]|].
    rewrite Hf. destruct (truthy x); eexists; (split; [reflexivity|exact I]). }
  destruct H as (r & Hr & Hnone).
  unfold _get_metric_value, get_metric_value_body, _get_oi, _get_funding_rate.
  destruct Hm as [[-> ->] | [-> ->]]; cbn [py_eq_str String.eqb Ascii.eqb Bool.eqb];
    rewrite Hr; destruct r as [[f|]|e]; (reflexivity || contradiction).
Qed.

(** A zero that arrives as text passes the guard and is returned. *)
Lemma textual_zero_is_returned (symbol : string) (time_window : PyVal) :
  float_of_str env "0.0" = Some 0%float ->
  _get_metric_value env (VStr "funding_rate") symbol
    [("asset_ctx", VDict [("funding", VStr "0.0")])] time_window = Some 0%float.
Proof.
  intros H. unfold _get_metric_value, get_metric_value_body, _get_funding_rate,
    get_asset_field.
  cbn. rewrite H. reflexivity.
Qed.

(** C5 (the code departs from it). A reading of zero is a number that
    [float] accepts, yet the resolver answers nothing for it, for the funding
    rate as for the open interest: the guard before the coercion tests the
    truth value of the field, and zero is false. *)
Theorem zero_reading_resolves_to_nothing :
  forall (symbol : string) (time_window : PyVal),
    py_float env (VFloat 0%float) = Ok 0%float
    /\ _get_metric_value env (VStr "funding_rate") symbol
         [("asset_ctx", VDict [("funding", VFloat 0%float)])] time_window = None
    /\ py_float env (VInt 0) = Ok 0%float
    /\ _get_metric_value env (VStr "oi") symbol
         [("asset_ctx", VDict [("openInterest", VInt 0)])] time_window = None.
Proof.
  intros symbol time_window. repeat split; vm_compute; reflexivity.
Qed.

End MetricResolver.

Section ConfigurationCache.

Variables (env : Env) (st : State).

Lemma refresh_not_due :
  cache_expired (clock env (ticks st)) st = false ->
  _refresh_cache_if_needed env st = (time_time env st).2.
Proof.
  intros H. unfold _refresh_cache_if_needed, time_time, cache_expired in *.
  cbn [_cache_time _cache_ttl snd]. now rewrite H.
Qed.

Lemma refresh_succeeds (pool_rows : list PoolRow.t) (signal_rows : list SignalDef.t) :
  cache_expired (clock env (ticks st)) st = true ->
  open_session env = Ok tt ->
  select_pools env = Ok pool_rows ->
  select_signals env = Ok signal_rows ->
  let st' := _refresh_cache_if_needed env st in
  _signal_pools_cache st' = map pool_of_row pool_rows
  /\ _signals_cache st' = signals_of_rows signal_rows
  /\ _cache_time st' = clock env (ticks st).
Proof.
  intros H Hs Hp Hd. unfold _refresh_cache_if_needed, time_time, cache_expired in *.
  cbn [_cache_time _cache_ttl]. rewrite H.
  unfold load_caches. rewrite Hs, Hp, Hd. repeat split.
Qed.

Lemma refresh_fails_before_pools :
  cache_expired (clock env (ticks st)) st = true ->
  (exists e, open_session env = Raise e) \/ (exists e, select_pools env = Raise e) ->
  let st' := _refresh_cache_if_needed env st in
  _signal_pools_cache st' = _signal_pools_cache st
  /\ _signals_cache st' = _signals_cache st
  /\ _cache_time st' = _cache_time st.
Proof.
  intros H Hf. unfold _refresh_cache_if_needed, time_time, cache_expired in *.
  cbn [_cache_time _cache_ttl]. rewrite H.
  unfold load_caches. destruct Hf as [[e ->] | [e He]]; [repeat split|].
  destruct (open_session env); [rewrite He|]; repeat split.
Qed.

(** When the pool query answers and the definition query raises, the pool
    cache already holds the new rows while the definitions and the timestamp
    are the old ones. *)
Lemma refresh_fails_after_pools (pool_rows : list PoolRow.t) (e : PyExn) :
  cache_expired (clock env (ticks st)) st = true ->
  open_session env = Ok tt ->
  select_pools env = Ok pool_rows ->
  select_signals env = Raise e ->
  let st' := _refresh_cache_if_needed env st in
  _signal_pools_cache st' = map pool_of_row pool_rows
  /\ _signals_cache st' = _signals_cache st
  /\ _cache_time st' = _cache_time st.
Proof.
  intros H Hs Hp Hd. unfold _refresh_cache_if_needed, time_time, cache_expired in *.
  cbn [_cache_time _cache_ttl]. rewrite H.
  unfold load_caches. rewrite Hs, Hp, Hd. repeat split.
Qed.

End ConfigurationCache.

(** C9 (the code departs from it). A refresh is due, the pool query returns
    the pool as it now stands and the definition query raises: afterwards
    the pool cache holds the new pool, not the stale one, while the
    definition cache and the timestamp are unchanged.  The stale snapshot is
    therefore not retained whole. *)
Theorem failed_refresh_replaces_pools :
  cache_expired (clock Outage.env 0) Outage.stale = true
  /\ _signal_pools_cache (_refresh_cache_if_needed Outage.env Outage.stale)
     = [pool_of_row Outage.P']
  /\ _signal_pools_cache (_refresh_cache_if_needed Outage.env Outage.stale)
     <> _signal_pools_cache Outage.stale
  /\ _signals_cache (_refresh_cache_if_needed Outage.env Outage.stale)
     = _signals_cache Outage.stale
  /\ _cache_time (_refresh_cache_if_needed Outage.env Outage.stale)
     = _cache_time Outage.stale.
Proof.
  assert (Hdue : cache_expired (clock Outage.env 0) Outage.stale = true)
    by (vm_compute; reflexivity).
  split; [exact Hdue|].
  destruct (refresh_fails_after_pools Outage.env Outage.stale [Outage.P'] DatabaseError
              Hdue eq_refl eq_refl eq_refl) as (Hp & Hs & Ht).
  cbn zeta in Hp, Hs, Ht. rewrite Hp. repeat split; try assumption.
  intros Heq. discriminate Heq.
Qed.

Section Isolation.

(** C8 (the code departs from it). Pool P holds signals A and B.  When A's
    threshold is text, comparing the open interest with it raises inside the
    evaluation of A, the loop over the candidates ends there, and the call
    hands back nothing although B, evaluated alone on the same update,
    triggers.  When A merely lacks its threshold, B does trigger in the same
    call. *)
Theorem failing_signal_ends_the_batch :
  let update := Scenario.update 1100000 in
  let both := Batch.pool [1; 2] in
  (_check_signal_trigger (Scenario.world [both] [Batch.A; Batch.B]) 1 Batch.A "BTC"
     update (__init__ 1 [])).1 = Raise TypeError
  /\ (detect_signals (Scenario.world [both] [Batch.A; Batch.B]) "BTC" update
        (__init__ 0 [])).1 = []
  /\ (detect_signals (Scenario.world [Batch.pool [2]] [Batch.A; Batch.B]) "BTC" update
        (__init__ 0 [])).1
     = [Batch.record_B 1100000%float (Scenario.wall_clock 2)]
  /\ (detect_signals (Scenario.world [both] [Batch.A_without_threshold; Batch.B]) "BTC"
        update (__init__ 0 [])).1
     = [Batch.record_B 1100000%float (Scenario.wall_clock 2)].
Proof.
  repeat split; vm_compute; reflexivity.
Qed.

End Isolation.

(** * Further properties of the service *)

Section Reset.

(** X1. [reset_state] removes exactly the entries its filter matches (all of
    them when no filter is given) and keeps every other entry as it was; the
    caches and the refresh timestamp are not touched. *)
Theorem reset_state_removes_matching (signal_id : option Z) (symbol : option string)
  (st : State) :
  (forall k : Z * string,
      signal_states (reset_state signal_id symbol st) !! k
      = if key_matches signal_id symbol k then None else signal_states st !! k)
  /\ _signal_pools_cache (reset_state signal_id symbol st) = _signal_pools_cache st
  /\ _signals_cache (reset_state signal_id symbol st) = _signals_cache st
  /\ _cache_time (reset_state signal_id symbol st) = _cache_time st.
Proof.
  split.
  - intros k.
    assert (Hfilter :
      filter (fun kv : (Z * string) * SignalState.t =>
                key_matches signal_id symbol kv.1 = false) (signal_states st) !! k
      = if key_matches signal_id symbol k then None else signal_states st !! k).
    { rewrite map_lookup_filter.
      destruct (key_matches signal_id symbol k) eqn:Hk;
        destruct (signal_states st !! k) as [s|]; try reflexivity;
        cbn [mbind option_bind].
      - rewrite option_guard_False; [reflexivity|].
        cbn [fst]. rewrite Hk. discriminate.
      - rewrite option_guard_True; [reflexivity|]. exact Hk. }
    destruct signal_id, symbol; try exact Hfilter.
    cbn. apply lookup_empty.
  - destruct signal_id, symbol; repeat split.
Qed.

Lemma stored_flag_absent (st : State) (signal_id : Z) (symbol : string) :
  signal_states st !! (signal_id, symbol) = None ->
  stored_flag st signal_id symbol = false.
Proof.
  intros H. unfold stored_flag, state_of. rewrite H. reflexivity.
Qed.

Lemma reset_state_forgets (i : option Z) (s : option string) (st : State)
  (signal_id : Z) (symbol : string) :
  key_matches i s (signal_id, symbol) = true ->
  signal_states (reset_state i s st) !! (signal_id, symbol) = None.
Proof.
  intros Hk. destruct i as [i|], s as [s|]; cbn [reset_state set_signal_states signal_states];
    try (rewrite map_lookup_filter;
         destruct (signal_states st !! (signal_id, symbol)); [|reflexivity];
         cbn [mbind option_bind];
         rewrite option_guard_False; [reflexivity|]; cbn [fst]; rewrite Hk;
         discriminate).
  apply lookup_empty.
Qed.

(** X2. A reset that covers a pair re-arms it: whatever its flag was, the
    next evaluation of the pair whose condition is met hands back a trigger
    record. *)
Theorem reset_state_rearms (env : Env) (i : option Z) (s : option string)
  (signal_id : Z) (signal_def : SignalDef.t) (symbol : string) (market_data : PyDict)
  (st : State) :
  key_matches i s (signal_id, symbol) = true ->
  condition_outcome env signal_def symbol market_data = Some true ->
  produced
    (_check_signal_trigger env signal_id signal_def symbol market_data
       (reset_state i s st)).1 = true.
Proof.
  intros Hk Hc.
  destruct (check_signal_trigger_step env signal_id signal_def symbol market_data
              (reset_state i s st) true Hc) as [Hp _].
  cbn zeta in Hp. rewrite Hp.
  rewrite stored_flag_absent by (now apply reset_state_forgets). reflexivity.
Qed.

End Reset.

Lemma reset_state_rearms_witness :
  let st :=
    (_check_signal_trigger Scenario.env 1 Scenario.S1 "BTC" (Scenario.update 1100000)
       (__init__ 0 [])).2 in
  stored_flag st 1 "BTC" = true
  /\ produced
       (_check_signal_trigger Scenario.env 1 Scenario.S1 "BTC"
          (Scenario.update 1200000) (reset_state (Some 1) None st)).1 = true.
Proof.
  split; [vm_compute; reflexivity|].
  apply (reset_state_rearms Scenario.env (Some 1) None 1 Scenario.S1 "BTC"
           (Scenario.update 1200000)).
  - vm_compute. reflexivity.
  - vm_compute. reflexivity.
Defined.

Section Frames.

Variable env : Env.

Lemma refresh_frame (st : State) :
  signal_states (_refresh_cache_if_needed env st) = signal_states st
  /\ signal_trigger_logs (_refresh_cache_if_needed env st) = signal_trigger_logs st
  /\ _cache_ttl (_refresh_cache_if_needed env st) = _cache_ttl st
  /\ ticks (_refresh_cache_if_needed env st) = S (ticks st).
Proof.
  unfold _refresh_cache_if_needed, time_time, load_caches.
  destruct (cache_expired _ _); [|repeat split].
  destruct (open_session env); [|repeat split].
  destruct (select_pools env); [|repeat split].
  destruct (select_signals env); repeat split.
Qed.

(** Evaluating a signal never touches the caches. *)
Lemma check_signal_trigger_caches (signal_id : Z) (signal_def : SignalDef.t)
  (symbol : string) (market_data : PyDict) (st : State) :
  let st' := (_check_signal_trigger env signal_id signal_def symbol market_data st).2 in
  _signal_pools_cache st' = _signal_pools_cache st
  /\ _signals_cache st' = _signals_cache st
  /\ _cache_time st' = _cache_time st
  /\ _cache_ttl st' = _cache_ttl st.
Proof.
  unfold _check_signal_trigger.
  destruct (read_condition env signal_def symbol market_data)
    as [[[[[metric operator] threshold] v]|]|e]; try (repeat split; fail).
  destruct (_evaluate_condition v operator threshold) as [c|e] eqn:Hc.
  - destruct (check_condition_reached env signal_id signal_def symbol metric operator
                threshold v st c Hc) as (_ & _ & H1 & H2 & H3 & H4 & _).
    cbn zeta in *. auto.
  - unfold check_condition. rewrite Hc. repeat split.
Qed.

(** A property of the state kept by the evaluation of each id of a list is
    kept by the loop over the list. *)
Lemma check_signals_invariant (P : State -> Prop) (symbol : string)
  (market_data : PyDict) (ids : list Z) :
  (forall (signal_id : Z) (signal_def : SignalDef.t) (st : State),
      In signal_id ids -> P st ->
      P (_check_signal_trigger env signal_id signal_def symbol market_data st).2) ->
  forall (acc : list TriggerRecord.t) (st : State),
    P st -> P (check_signals env ids symbol market_data acc st).2.
Proof.
  induction ids as [|signal_id rest IH]; intros Hstep acc st HP; [exact HP|].
  assert (Hrest : forall (i : Z) (sd : SignalDef.t) (st0 : State),
             In i rest -> P st0 ->
             P (_check_signal_trigger env i sd symbol market_data st0).2).
  { intros i sd st0 Hi. apply Hstep. now right. }
  cbn [check_signals].
  destruct (_signals_cache st !! signal_id) as [signal_def|]; [|now apply IH].
  destruct (negb (SignalDef.enabled signal_def)); [now apply IH|].
  pose proof (Hstep signal_id signal_def st (or_introl eq_refl) HP) as HP'.
  destruct (_check_signal_trigger env signal_id signal_def symbol market_data st)
    as [[[t|]|e] st']; cbn [snd] in HP'; [now apply IH|now apply IH|exact HP'].
Qed.

Lemma detect_signals_invariant (P : State -> Prop) (symbol : string)
  (market_data : PyDict) (st : State) :
  P (_refresh_cache_if_needed env st) ->
  (forall (signal_id : Z) (signal_def : SignalDef.t) (st' : State),
      P st' ->
      P (_check_signal_trigger env signal_id signal_def symbol market_data st').2) ->
  P (detect_signals env symbol market_data st).2.
Proof.
  intros Hrefresh Hstep. unfold detect_signals. cbn zeta.
  destruct (List.filter (relevant symbol)
              (_signal_pools_cache (_refresh_cache_if_needed env st))) eqn:Hf;
    [exact Hrefresh|].
  apply check_signals_invariant; [|exact Hrefresh].
  intros i sd st' _. apply Hstep.
Qed.

Lemma check_signal_trigger_keys_agree (signal_id : Z) (signal_def : SignalDef.t)
  (symbol : string) (market_data : PyDict) (st : State) :
  keys_agree st ->
  keys_agree (_check_signal_trigger env signal_id signal_def symbol market_data st).2.
Proof.
  intros Hst. unfold _check_signal_trigger.
  destruct (read_condition env signal_def symbol market_data)
    as [[[[[metric operator] threshold] v]|]|e]; try exact Hst.
  destruct (_evaluate_condition v operator threshold) as [c|e] eqn:Hc;
    [|unfold check_condition; rewrite Hc; exact Hst].
  destruct (check_condition_reached env signal_id signal_def symbol metric operator
              threshold v st c Hc) as (_ & Hs & _).
  cbn zeta in Hs. intros k s. rewrite Hs.
  destruct (decide (k = (signal_id, symbol))) as [->|Hk].
  - rewrite lookup_insert_eq. intros [= <-]. cbn.
    unfold state_of.
    destruct (signal_states st !! (signal_id, symbol)) as [old|] eqn:Hold;
      [exact (Hst _ _ Hold)|reflexivity].
  - rewrite lookup_insert_ne by congruence. apply Hst.
Qed.

End Frames.

Section Invariants.

Lemma fresh_keys_agree (n : nat) (logs : list TriggerRecord.t) :
  keys_agree (__init__ n logs).
Proof.
  intros k s. cbn. rewrite lookup_empty. discriminate.
Qed.

Lemma detect_signals_keys_agree (env : Env) (symbol : string) (market_data : PyDict)
  (st : State) :
  keys_agree st -> keys_agree (detect_signals env symbol market_data st).2.
Proof.
  intros Hst. apply detect_signals_invariant.
  - intros k s. destruct (refresh_frame env st) as (-> & _). apply Hst.
  - intros i sd st'. apply check_signal_trigger_keys_agree.
Qed.

(** X3. Every state is stored under the pair named by its own [signal_id]
    and [symbol] fields: this holds of a fresh service, and a call of
    [detect_signals] or of [reset_state] keeps it. *)
Theorem keys_agree_is_kept :
  (forall (n : nat) (logs : list TriggerRecord.t), keys_agree (__init__ n logs))
  /\ (forall (env : Env) (symbol : string) (market_data : PyDict) (st : State),
         keys_agree st -> keys_agree (detect_signals env symbol market_data st).2)
  /\ (forall (i : option Z) (s : option string) (st : State),
         keys_agree st -> keys_agree (reset_state i s st)).
Proof.
  split; [|split].
  - exact fresh_keys_agree.
  - exact detect_signals_keys_agree.
  - intros i s st Hst k x.
    destruct i as [i|], s as [s|]; cbn [reset_state set_signal_states signal_states];
      try (rewrite map_lookup_filter_Some; intros [Hx _]; exact (Hst _ _ Hx)).
    rewrite lookup_empty. discriminate.
Qed.

Lemma keys_agree_is_kept_witness :
  keys_agree
    (detect_signals Scenario.env "BTC" (Scenario.update 1100000) (__init__ 0 [])).2.
Proof.
  apply (proj1 (proj2 keys_agree_is_kept)).
  apply (proj1 keys_agree_is_kept).
Defined.

(** X4. A call of [detect_signals] for one symbol leaves the stored state of
    every pair of any other symbol exactly as it was. *)
Theorem detect_signals_other_symbols (env : Env) (symbol : string)
  (market_data : PyDict) (st : State) (k : Z * string) :
  k.2 <> symbol ->
  signal_states (detect_signals env symbol market_data st).2 !! k
  = signal_states st !! k.
Proof.
  intros Hk.
  apply (detect_signals_invariant env
           (fun st' => signal_states st' !! k = signal_states st !! k)).
  - destruct (refresh_frame env st) as (-> & _). reflexivity.
  - intros i sd st' <-. apply check_signal_trigger_other_pair.
    intros ->. now apply Hk.
Qed.

Lemma detect_signals_other_symbols_witness :
  let st :=
    (detect_signals Scenario.env "ETH" (Scenario.update 1100000) (__init__ 0 [])).2 in
  signal_states
    (detect_signals Scenario.env "BTC" (Scenario.update 1100000) st).2 !! (1, "ETH")
  = signal_states st !! (1, "ETH").
Proof.
  cbn zeta. apply detect_signals_other_symbols. cbn. discriminate.
Defined.

End Invariants.

Section Records.

Variable env : Env.

(** X5. A trigger record comes back from [_check_signal_trigger] only on a
    rising edge: the condition fields were read, the metric resolved, the
    operator evaluator answered true and the stored flag was false; the
    record then carries exactly the signal id, the symbol, the resolved
    value, the condition's metric, operator and threshold, the definition's
    name and description, and the second clock reading of the call. *)
Theorem trigger_record_describes_edge (signal_id : Z) (signal_def : SignalDef.t)
  (symbol : string) (market_data : PyDict) (st : State) (r : TriggerRecord.t) :
  (_check_signal_trigger env signal_id signal_def symbol market_data st).1 = Ok (Some r) ->
  exists (metric operator threshold : PyVal) (v : float),
    read_condition env signal_def symbol market_data
    = Ok (Some (metric, operator, threshold, v))
    /\ _evaluate_condition v operator threshold = Ok true
    /\ stored_flag st signal_id symbol = false
    /\ r = TriggerRecord.mk signal_id (SignalDef.signal_name signal_def) symbol v
             threshold operator metric (clock env (S (ticks st)))
             (SignalDef.description signal_def).
Proof.
  unfold _check_signal_trigger.
  destruct (read_condition env signal_def symbol market_data)
    as [[[[[metric operator] threshold] v]|]|e]; try discriminate.
  destruct (_evaluate_condition v operator threshold) as [c|e] eqn:Hc;
    [|unfold check_condition; rewrite Hc; discriminate].
  destruct (check_condition_reached env signal_id signal_def symbol metric operator
              threshold v st c Hc) as (Hr & _).
  cbn zeta in Hr. rewrite Hr.
  destruct c, (stored_flag st signal_id symbol); cbn [andb negb]; try discriminate.
  intros [= <-]. exists metric, operator, threshold, v. repeat split. exact Hc.
Qed.

End Records.

Lemma trigger_record_describes_edge_witness :
  exists (metric operator threshold : PyVal) (v : float),
    read_condition Scenario.env Scenario.S1 "BTC" (Scenario.update 1100000)
    = Ok (Some (metric, operator, threshold, v))
    /\ _evaluate_condition v operator threshold = Ok true
    /\ stored_flag (__init__ 0 []) 1 "BTC" = false
    /\ Scenario.record 1100000%float (clock Scenario.env 1)
       = TriggerRecord.mk 1 (SignalDef.signal_name Scenario.S1) "BTC" v
           threshold operator metric (clock Scenario.env 1)
           (SignalDef.description Scenario.S1).
Proof.
  apply (trigger_record_describes_edge Scenario.env 1 Scenario.S1 "BTC"
           (Scenario.update 1100000) (__init__ 0 [])).
  vm_compute. reflexivity.
Defined.

Section Loop.

Variable env : Env.
Variable symbol : string.
Variable market_data : PyDict.



Lemma triggered_is_edge (signal_id : Z) (signal_def : SignalDef.t) (st : State)
  (t : TriggerRecord.t) :
  (_check_signal_trigger env signal_id signal_def symbol market_data st).1
  = Ok (Some t) ->
  TriggerRecord.symbol t = symbol
  /\ TriggerRecord.signal_id t = signal_id
  /\ stored_flag st signal_id symbol = false
  /\ condition_outcome env signal_def symbol market_data = Some true.
Proof.
  unfold _check_signal_trigger, condition_outcome.
  destruct (read_condition env signal_def symbol market_data)
    as [[[[[metric operator] threshold] v]|]|e]; try discriminate.
  destruct (_evaluate_condition v operator threshold) as [c|e] eqn:Hc;
    [|unfold check_condition; rewrite Hc; discriminate].
  destruct (check_condition_reached env signal_id signal_def symbol metric operator
              threshold v st c Hc) as (Hr & _).
  cbn zeta in Hr. rewrite Hr.
  destruct c, (stored_flag st signal_id symbol); cbn [andb negb]; try discriminate.
  intros [= <-]. repeat split.
Qed.


(** X7. Candidate ids that have no enabled definition in the cache have no
    effect at all: the loop of [detect_signals] returns the same records and
    leaves the same state as the loop over the remaining ids alone. *)
Theorem check_signals_filter (ids : list Z) :
  forall (acc : list TriggerRecord.t) (st : State),
    check_signals env ids symbol market_data acc st
    = check_signals env (List.filter (evaluated_id st) ids) symbol market_data acc st.
Proof.
  induction ids as [|signal_id rest IH]; intros acc st; [reflexivity|].
  cbn [List.filter]. unfold evaluated_id at 1.
  destruct (_signals_cache st !! signal_id) as [signal_def|] eqn:Hdef;
    [|cbn [check_signals]; rewrite Hdef; apply IH].
  destruct (SignalDef.enabled signal_def) eqn:Hen;
    [|cbn [check_signals]; rewrite Hdef, Hen; apply IH].
  cbn [check_signals]. rewrite Hdef, Hen. cbn [negb].
  destruct (check_signal_trigger_caches env signal_id signal_def symbol market_data st)
    as (_ & Hcache & _).
  cbn zeta in Hcache.
  destruct (_check_signal_trigger env signal_id signal_def symbol market_data st)
    as [[[t|]|e] st']; cbn [snd] in Hcache; try reflexivity;
    rewrite IH; f_equal; apply filter_ext; intros i; unfold evaluated_id;
    now rewrite Hcache.
Qed.

End Loop.

Section Batches.

Variable env : Env.


End Batches.


Section TriggerLog.

Variable env : Env.

Lemma check_signal_trigger_logs (signal_id : Z) (signal_def : SignalDef.t)
  (symbol : string) (market_data : PyDict) (st : State) :
  let out := _check_signal_trigger env signal_id signal_def symbol market_data st in
  signal_trigger_logs out.2
  = signal_trigger_logs st
    ++ List.filter (logged env)
         (match out.1 with Ok (Some r) => [r] | _ => [] end).
Proof.
  unfold _check_signal_trigger.
  destruct (read_condition env signal_def symbol market_data)
    as [[[[[metric operator] threshold] v]|]|e];
    try (cbn; now rewrite app_nil_r).
  unfold check_condition.
  destruct (_evaluate_condition v operator threshold) as [c|e];
    [|cbn; now rewrite app_nil_r].
  cbn zeta. unfold time_time.
  cbn [ticks signal_states set_signal_states signal_trigger_logs].
  destruct (c && negb _); [|cbn; now rewrite app_nil_r].
  cbn [fst snd List.filter]. unfold logged, _log_trigger.
  destruct (open_session env); [|cbn; now rewrite app_nil_r].
  destruct (insert_trigger_log env _); cbn; [reflexivity|now rewrite app_nil_r].
Qed.

Lemma check_signals_logs (symbol : string) (market_data : PyDict) (ids : list Z) :
  forall (acc : list TriggerRecord.t) (st : State),
  exists new : list TriggerRecord.t,
    (check_signals env ids symbol market_data acc st).1 = acc ++ new
    /\ signal_trigger_logs (check_signals env ids symbol market_data acc st).2
       = signal_trigger_logs st ++ List.filter (logged env) new.
Proof.
  induction ids as [|signal_id rest IH]; intros acc st.
  { exists []. cbn. now rewrite !app_nil_r. }
  cbn [check_signals].
  destruct (_signals_cache st !! signal_id) as [signal_def|]; [|apply IH].
  destruct (negb (SignalDef.enabled signal_def)); [apply IH|].
  pose proof (check_signal_trigger_logs signal_id signal_def symbol market_data st)
    as Hlog. cbn zeta in Hlog.
  destruct (_check_signal_trigger env signal_id signal_def symbol market_data st)
    as [[[t|]|e] st']; cbn [fst snd] in Hlog.
  - destruct (IH (acc ++ [t]) st') as (new & Hr & Hl).
    exists (t :: new). rewrite Hr, Hl, Hlog.
    rewrite <- !app_assoc. cbn [List.filter app].
    destruct (logged env t); cbn [app]; split; reflexivity.
  - destruct (IH acc st') as (new & Hr & Hl).
    exists new. rewrite Hr, Hl, Hlog. cbn. now rewrite app_nil_r.
  - exists []. cbn [fst snd]. rewrite Hlog. cbn. now rewrite !app_nil_r.
Qed.

(** X8. A call of [detect_signals] adds to the trigger log table exactly the
    records it returns that the sink accepted, in the order returned, after
    the rows already there; with a sink that accepts nothing the table is
    unchanged, with one that accepts everything it gains the whole result. *)
Theorem detect_signals_logs_what_it_returns (symbol : string) (market_data : PyDict)
  (st : State) :
  signal_trigger_logs (detect_signals env symbol market_data st).2
  = signal_trigger_logs st
    ++ List.filter (logged env) (detect_signals env symbol market_data st).1.
Proof.
  unfold detect_signals. cbn zeta.
  destruct (refresh_frame env st) as (_ & Hlogs & _).
  destruct (List.filter (relevant symbol)
              (_signal_pools_cache (_refresh_cache_if_needed env st))) as [|p ps].
  - cbn. now rewrite app_nil_r.
  - match goal with
    | |- context [check_signals env ?ids symbol market_data [] ?s] =>
        destruct (check_signals_logs symbol market_data ids [] s) as (new & Hr & Hl)
    end.
    rewrite Hr, Hl, Hlogs. reflexivity.
Qed.

End TriggerLog.

Section SinkIndependence.

Variable env : Env.
Variable sink : TriggerRecord.t -> Result unit.

Lemma same_service_refl (st : State) : same_service st st.
Proof. repeat split. Qed.

Lemma check_signal_trigger_any_sink (signal_id : Z) (signal_def : SignalDef.t)
  (symbol : string) (market_data : PyDict) (st st' : State) :
  same_service st st' ->
  (_check_signal_trigger env signal_id signal_def symbol market_data st).1
  = (_check_signal_trigger (with_sink env sink) signal_id signal_def symbol
       market_data st').1
  /\ same_service
       (_check_signal_trigger env signal_id signal_def symbol market_data st).2
       (_check_signal_trigger (with_sink env sink) signal_id signal_def symbol
          market_data st').2.
Proof.
  destruct st as [states pools signals time ttl n logs].
  destruct st' as [states' pools' signals' time' ttl' n' logs'].
  unfold same_service. cbn [signal_states _signal_pools_cache _signals_cache
                            _cache_time _cache_ttl ticks].
  intros (<- & <- & <- & <- & <- & <-).
  unfold _check_signal_trigger.
  change (read_condition (with_sink env sink) signal_def symbol market_data)
    with (read_condition env signal_def symbol market_data).
  destruct (read_condition env signal_def symbol market_data)
    as [[[[[metric operator] threshold] v]|]|e]; try (cbn; repeat split; fail).
  unfold check_condition.
  destruct (_evaluate_condition v operator threshold) as [c|e];
    [|cbn; repeat split].
  unfold stored_flag, state_of, time_time, _log_trigger.
  cbn [signal_states _signal_pools_cache _signals_cache _cache_time _cache_ttl ticks
       set_signal_states signal_trigger_logs with_sink open_session insert_trigger_log
       clock].
  destruct (c && negb _); [|cbn; repeat split].
  cbn [fst snd]. destruct (open_session env); [|cbn; repeat split].
  destruct (insert_trigger_log env _), (sink _); cbn; repeat split.
Qed.

Lemma check_signals_any_sink (symbol : string) (market_data : PyDict) (ids : list Z) :
  forall (acc : list TriggerRecord.t) (st st' : State),
    same_service st st' ->
    (check_signals env ids symbol market_data acc st).1
    = (check_signals (with_sink env sink) ids symbol market_data acc st').1
    /\ same_service
         (check_signals env ids symbol market_data acc st).2
         (check_signals (with_sink env sink) ids symbol market_data acc st').2.
Proof.
  induction ids as [|signal_id rest IH]; intros acc st st' Hsame;
    [split; [reflexivity|exact Hsame]|].
  cbn [check_signals].
  assert (Hcache : _signals_cache st = _signals_cache st') by apply Hsame.
  rewrite <- Hcache.
  destruct (_signals_cache st !! signal_id) as [signal_def|]; [|now apply IH].
  destruct (negb (SignalDef.enabled signal_def)); [now apply IH|].
  destruct (check_signal_trigger_any_sink signal_id signal_def symbol market_data
              st st' Hsame) as [Hr Hs].
  destruct (_check_signal_trigger env signal_id signal_def symbol market_data st)
    as [r st1].
  destruct (_check_signal_trigger (with_sink env sink) signal_id signal_def symbol
              market_data st') as [r' st1'].
  cbn [fst snd] in Hr, Hs. subst r'.
  destruct r as [[t|]|e]; [now apply IH|now apply IH|split; [reflexivity|exact Hs]].
Qed.

(** X9. What a call of [detect_signals] returns, and the service state it
    leaves (edge states, caches, timestamp), do not depend on the trigger
    sink: replacing the sink by any other, failing or not, changes nothing
    but the rows of the log table. *)
Theorem detect_signals_any_sink (symbol : string) (market_data : PyDict) (st : State) :
  (detect_signals (with_sink env sink) symbol market_data st).1
  = (detect_signals env symbol market_data st).1
  /\ same_service
       (detect_signals env symbol market_data st).2
       (detect_signals (with_sink env sink) symbol market_data st).2.
Proof.
  unfold detect_signals. cbn zeta.
  change (_refresh_cache_if_needed (with_sink env sink) st)
    with (_refresh_cache_if_needed env st).
  change (iter_order (with_sink env sink)) with (iter_order env).
  destruct (List.filter (relevant symbol)
              (_signal_pools_cache (_refresh_cache_if_needed env st))) as [|p ps].
  - split; [reflexivity|apply same_service_refl].
  - match goal with
    | |- context [check_signals env ?ids symbol market_data [] ?s] =>
        destruct (check_signals_any_sink symbol market_data ids [] s s
                    (same_service_refl s)) as [Hr Hs]
    end.
    split; [symmetry; exact Hr|exact Hs].
Qed.

End SinkIndependence.

Section Resolver.

Variable env : Env.

(** X10. A metric that is not one of the seven recognised names, a metric
    that is not a string included, resolves to nothing, whatever the payload,
    the time window and the stores hold. *)
Theorem unknown_metric_is_absent (metric : PyVal) (symbol : string)
  (market_data : PyDict) (time_window : PyVal) :
  (forall m : string, metric = VStr m -> ~ In m known_metrics) ->
  _get_metric_value env metric symbol market_data time_window = None.
Proof.
  intros Hm. unfold _get_metric_value, get_metric_value_body.
  destruct metric as [| | | |m| |];
    try (cbn [py_eq_str]; destruct (_time_window_to_period time_window);
         reflexivity).
  specialize (Hm m eq_refl). unfold py_eq_str.
  destruct (String.eqb_spec m "oi") as [->|_]; [exfalso; apply Hm; cbn; tauto|].
  destruct (String.eqb_spec m "funding_rate") as [->|_];
    [exfalso; apply Hm; cbn; tauto|].
  destruct (_time_window_to_period time_window); [|reflexivity].
  cbn [rbind indicator_lookup indicator_map assoc].
  repeat match goal with
  | |- context [String.eqb m ?s] =>
      destruct (String.eqb_spec m s) as [->|_]; [exfalso; apply Hm; cbn; tauto|]
  end.
  reflexivity.
Qed.

(** X11. For each of the five stored indicators the resolver asks the
    indicator store for the symbol, the indicator kind the metric name maps
    to, and the period the time window buckets to; the store's answer is the
    result, and a session that fails to open or a store that raises gives
    nothing. *)
Theorem indicator_metric_asks_the_store (m kind : string) (symbol : string)
  (market_data : PyDict) (time_window : PyVal) (period : string) :
  In (m, kind) indicator_map ->
  _time_window_to_period time_window = Ok period ->
  _get_metric_value env (VStr m) symbol market_data time_window
  = match open_session env with
    | Ok _ =>
        match get_indicator_value env symbol kind period with
        | Ok r => r
        | Raise _ => None
        end
    | Raise _ => None
    end.
Proof.
  intros Hin Hperiod. unfold _get_metric_value, get_metric_value_body.
  cbn in Hin.
  repeat (destruct Hin as [[= <- <-]|Hin];
          [cbn; rewrite Hperiod; cbn; destruct (open_session env); reflexivity|]).
  destruct Hin.
Qed.

(** X12. For the two embedded metrics the resolver returns a value exactly
    when the asset context of the update is a dict that holds the metric's
    field with a truthy value that [float] accepts, and the value returned is
    that coercion. *)
Theorem embedded_metric_characterised (metric field : string) (symbol : string)
  (market_data : PyDict) (time_window : PyVal) (f : float) :
  In (metric, field) embedded_metrics ->
  _get_metric_value env (VStr metric) symbol market_data time_window = Some f
  <-> exists (ctx : PyDict) (x : PyVal),
        dict_get_default market_data "asset_ctx" (VDict []) = VDict ctx
        /\ dict_get ctx field = Some x
        /\ truthy x = true
        /\ py_float env x = Ok f.
Proof.
  intros Hin.
  assert (Hbody : _get_metric_value env (VStr metric) symbol market_data time_window
                  = match get_asset_field env field market_data with
                    | Ok r => r
                    | Raise _ => None
                    end).
  { cbn in Hin. destruct Hin as [[= <- <-]|[[= <- <-]|[]]]; reflexivity. }
  rewrite Hbody. unfold get_asset_field.
  destruct (dict_get_default market_data "asset_ctx" (VDict [])) as [| | | | | |ctx];
    try (cbn; split; [discriminate|intros (c & x & [=] & _)]).
  cbn [py_get rbind]. unfold dict_get_default.
  destruct (dict_get ctx field) as [x|] eqn:Hx.
  - destruct (truthy x) eqn:Ht.
    + destruct (py_float env x) as [g|e] eqn:Hf; cbn [rbind].
      * split.
        -- intros [= ->]. exists ctx, x. auto.
        -- intros (c & y & [= <-] & Hy & _ & Hg).
           rewrite Hx in Hy. injection Hy as <-. congruence.
      * split; [discriminate|].
        intros (c & y & [= <-] & Hy & _ & Hg).
        rewrite Hx in Hy. injection Hy as <-. congruence.
    + split; [discriminate|].
      intros (c & y & [= <-] & Hy & Hty & _).
      rewrite Hx in Hy. injection Hy as <-. congruence.
  - cbn. split; [discriminate|].
    intros (c & y & [= <-] & Hy & _). rewrite Hx in Hy. discriminate.
Qed.

End Resolver.

Lemma unknown_metric_is_absent_witness :
  _get_metric_value Scenario.env (VStr "volume") "BTC" (Scenario.update 5) (VInt 60)
  = None.
Proof.
  apply unknown_metric_is_absent.
  intros m [= <-]. cbn. intros H.
  repeat destruct H as [H|H]; try discriminate H; exact H.
Defined.

Lemma indicator_metric_asks_the_store_witness :
  _get_metric_value Scenario.env (VStr "cvd") "BTC" (Scenario.update 5) (VInt 200)
  = match open_session Scenario.env with
    | Ok _ =>
        match get_indicator_value Scenario.env "BTC" "CVD" "5m" with
        | Ok r => r
        | Raise _ => None
        end
    | Raise _ => None
    end.
Proof.
  apply (indicator_metric_asks_the_store Scenario.env "cvd" "CVD" "BTC"
           (Scenario.update 5) (VInt 200) "5m").
  - cbn. tauto.
  - reflexivity.
Defined.

Lemma embedded_metric_characterised_witness :
  _get_metric_value Scenario.env (VStr "oi") "BTC" (Scenario.update 7) (VInt 60)
  = Some 7%float.
Proof.
  apply (embedded_metric_characterised Scenario.env "oi" "openInterest" "BTC"
           (Scenario.update 7) (VInt 60) 7%float).
  - cbn. tauto.
  - exists [("openInterest", VInt 7)], (VInt 7).
    repeat split; vm_compute; reflexivity.
Defined.

Section Evaluation.

Variable env : Env.

Lemma evaluate_unrecognised (v : float) (operator threshold : PyVal) :
  (forall op : string, operator = VStr op -> ~ In op known_operators) ->
  _evaluate_condition v operator threshold = Ok false.
Proof.
  intros Hop. destruct operator as [| | | |op| |]; try reflexivity.
  apply evaluate_unknown. now apply Hop.
Qed.

(** X13. A condition whose operator is not one of the ten recognised
    spellings counts as not met: once its metric resolves to [v], the
    evaluation hands back no record, whatever the threshold is, and stores
    the pair as inactive with [v] as last value, so a pair that was active
    is deactivated. *)
Theorem unknown_operator_deactivates (signal_id : Z) (signal_def : SignalDef.t)
  (symbol : string) (market_data : PyDict) (st : State)
  (metric operator threshold : PyVal) (v : float) :
  read_condition env signal_def symbol market_data
  = Ok (Some (metric, operator, threshold, v)) ->
  (forall op : string, operator = VStr op -> ~ In op known_operators) ->
  let out := _check_signal_trigger env signal_id signal_def symbol market_data st in
  out.1 = Ok None
  /\ exists s : SignalState.t,
       signal_states out.2 !! (signal_id, symbol) = Some s
       /\ SignalState.is_active s = false
       /\ SignalState.last_value s = Some v.
Proof.
  intros Hread Hop. cbn zeta. unfold _check_signal_trigger. rewrite Hread.
  pose proof (evaluate_unrecognised v operator threshold Hop) as Hc.
  destruct (check_condition_reached env signal_id signal_def symbol metric operator
              threshold v st false Hc) as (Hr & Hs & _).
  cbn zeta in Hr, Hs. rewrite Hr, Hs, lookup_insert_eq.
  split; [reflexivity|]. eexists. repeat split.
Qed.

(** X14. An evaluation that raises, because the condition is not a dict or
    because the operator evaluator raises on the threshold, leaves the whole
    state as it was: no entry is created or changed and the clock is not
    read. *)
Theorem raising_evaluation_changes_nothing (signal_id : Z) (signal_def : SignalDef.t)
  (symbol : string) (market_data : PyDict) (st : State) (e : PyExn) :
  (_check_signal_trigger env signal_id signal_def symbol market_data st).1 = Raise e ->
  (_check_signal_trigger env signal_id signal_def symbol market_data st).2 = st.
Proof.
  unfold _check_signal_trigger.
  destruct (read_condition env signal_def symbol market_data)
    as [[[[[metric operator] threshold] v]|]|e']; try reflexivity.
  destruct (_evaluate_condition v operator threshold) as [c|e'] eqn:Hc;
    [|unfold check_condition; rewrite Hc; reflexivity].
  destruct (check_condition_reached env signal_id signal_def symbol metric operator
              threshold v st c Hc) as (Hr & _).
  cbn zeta in Hr. rewrite Hr. discriminate.
Qed.

Lemma undefined_outcome_is_silent (signal_id : Z) (signal_def : SignalDef.t)
  (symbol : string) (market_data : PyDict) (st : State) :
  condition_outcome env signal_def symbol market_data = None ->
  produced (_check_signal_trigger env signal_id signal_def symbol market_data st).1
  = false.
Proof.
  unfold condition_outcome, _check_signal_trigger.
  destruct (read_condition env signal_def symbol market_data)
    as [[[[[metric operator] threshold] v]|]|e']; try reflexivity.
  unfold check_condition.
  destruct (_evaluate_condition v operator threshold); [discriminate|reflexivity].
Qed.

(** X15. Evaluating a pair a second time, straight after the first and with
    the same definition, update and outside world, never hands back a
    record, whatever the first evaluation did. *)
Theorem immediate_reevaluation_is_silent (signal_id : Z) (signal_def : SignalDef.t)
  (symbol : string) (market_data : PyDict) (st : State) :
  produced
    (_check_signal_trigger env signal_id signal_def symbol market_data
       (_check_signal_trigger env signal_id signal_def symbol market_data st).2).1
  = false.
Proof.
  destruct (condition_outcome env signal_def symbol market_data) as [c|] eqn:Hc;
    [|now apply undefined_outcome_is_silent].
  destruct (check_signal_trigger_step env signal_id signal_def symbol market_data
              st c Hc) as [_ Hflag].
  destruct (check_signal_trigger_step env signal_id signal_def symbol market_data
              (_check_signal_trigger env signal_id signal_def symbol market_data st).2
              c Hc) as [Hp _].
  cbn zeta in *. rewrite Hp, Hflag. destruct c; reflexivity.
Qed.

(** X16. Against a threshold that is not a number (text, null, a list, a
    dict) each of the ten recognised operators raises [TypeError], for every
    value. *)
Theorem non_numeric_threshold_raises (v : float) (op : string) (threshold : PyVal) :
  In op known_operators ->
  numeric threshold = false ->
  _evaluate_condition v (VStr op) threshold = Raise TypeError.
Proof.
  intros Hop Hnum. cbn in Hop.
  repeat (destruct Hop as [<-|Hop];
          [destruct threshold; try discriminate Hnum; reflexivity|]).
  destruct Hop.
Qed.

End Evaluation.

Lemma unknown_operator_deactivates_witness :
  let signal_def :=
    SignalDef.mk 1 (VStr "S1") VNone
      (VDict [("metric", VStr "oi"); ("operator", VStr "=>");
              ("threshold", VInt 1000000)]) true in
  let st :=
    (_check_signal_trigger Scenario.env 1 Scenario.S1 "BTC" (Scenario.update 1100000)
       (__init__ 0 [])).2 in
  let out :=
    _check_signal_trigger Scenario.env 1 signal_def "BTC" (Scenario.update 1200000) st in
  stored_flag st 1 "BTC" = true
  /\ out.1 = Ok None
  /\ exists s : SignalState.t,
       signal_states out.2 !! (1, "BTC") = Some s
       /\ SignalState.is_active s = false
       /\ SignalState.last_value s = Some 1200000%float.
Proof.
  cbn zeta. split; [vm_compute; reflexivity|].
  apply (unknown_operator_deactivates Scenario.env 1 _ "BTC" (Scenario.update 1200000)
           _ (VStr "oi") (VStr "=>") (VInt 1000000) 1200000%float).
  - vm_compute. reflexivity.
  - intros op [= <-]. cbn. intros H.
    repeat destruct H as [H|H]; try discriminate H; exact H.
Defined.

Lemma raising_evaluation_changes_nothing_witness :
  (_check_signal_trigger (Scenario.world [Batch.pool [1; 2]] [Batch.A; Batch.B]) 1
     Batch.A "BTC" (Scenario.update 1100000) (__init__ 0 [])).2
  = __init__ 0 [].
Proof.
  apply (raising_evaluation_changes_nothing _ 1 Batch.A "BTC" (Scenario.update 1100000)
           (__init__ 0 []) TypeError).
  vm_compute. reflexivity.
Defined.

Lemma non_numeric_threshold_raises_witness :
  _evaluate_condition 5%float (VStr "abs_lt") (VStr "3") = Raise TypeError.
Proof.
  apply non_numeric_threshold_raises.
  - cbn. tauto.
  - reflexivity.
Defined.

Section CacheContents.

Lemma signals_of_rows_snoc (rows : list SignalDef.t) (row : SignalDef.t) :
  signals_of_rows (rows ++ [row]) = <[SignalDef.id row := row]> (signals_of_rows rows).
Proof.
  unfold signals_of_rows. now rewrite fold_left_app.
Qed.

(** X17. After a refresh the definition cache answers, for an id, with the
    last fetched row that has this id, and with nothing when no fetched row
    has it. *)
Theorem signals_of_rows_lookup (rows : list SignalDef.t) (signal_id : Z) :
  signals_of_rows rows !! signal_id
  = List.find (fun row => SignalDef.id row =? signal_id) (rev rows).
Proof.
  induction rows as [|row rows IH] using rev_ind; [apply lookup_empty|].
  rewrite signals_of_rows_snoc, rev_app_distr. cbn [rev app List.find].
  destruct (Z.eqb_spec (SignalDef.id row) signal_id) as [->|Hne].
  - apply lookup_insert_eq.
  - rewrite lookup_insert_ne by exact Hne. exact IH.
Qed.

Variables (env : Env) (st : State).

(** X18. Once a refresh has succeeded, an access that comes less than the
    time-to-live after it keeps the caches and the timestamp of that
    refresh, whatever the configuration store holds by then; an access that
    comes later, with the store answering, replaces them by what the store
    holds then. *)
Theorem cache_is_reused_within_ttl (env' : Env)
  (pool_rows pool_rows' : list PoolRow.t) (signal_rows signal_rows' : list SignalDef.t) :
  cache_expired (clock env (ticks st)) st = true ->
  open_session env = Ok tt ->
  select_pools env = Ok pool_rows ->
  select_signals env = Ok signal_rows ->
  let now := clock env (ticks st) in
  let now' := clock env' (S (ticks st)) in
  let st2 := _refresh_cache_if_needed env' (_refresh_cache_if_needed env st) in
  (PrimFloat.ltb (PrimFloat.sub now' now) (_cache_ttl st) = true ->
   _signal_pools_cache st2 = map pool_of_row pool_rows
   /\ _signals_cache st2 = signals_of_rows signal_rows
   /\ _cache_time st2 = now)
  /\ (PrimFloat.ltb (PrimFloat.sub now' now) (_cache_ttl st) = false ->
      open_session env' = Ok tt ->
      select_pools env' = Ok pool_rows' ->
      select_signals env' = Ok signal_rows' ->
      _signal_pools_cache st2 = map pool_of_row pool_rows'
      /\ _signals_cache st2 = signals_of_rows signal_rows'
      /\ _cache_time st2 = now').
Proof.
  intros Hdue Hs Hp Hd now now' st2.
  destruct (refresh_succeeds env st pool_rows signal_rows Hdue Hs Hp Hd)
    as (Hpools & Hsignals & Htime).
  destruct (refresh_frame env st) as (_ & _ & Httl & Hticks).
  cbn zeta in *.
  assert (Hexp : cache_expired (clock env' (ticks (_refresh_cache_if_needed env st)))
                   (_refresh_cache_if_needed env st)
                 = negb (PrimFloat.ltb (PrimFloat.sub now' now) (_cache_ttl st))).
  { unfold cache_expired. now rewrite Hticks, Htime, Httl. }
  split.
  - intros Hlt. rewrite Hlt in Hexp. subst st2.
    rewrite (refresh_not_due env' _ Hexp). unfold time_time. cbn. auto.
  - intros Hlt Hs' Hp' Hd'. rewrite Hlt in Hexp.
    destruct (refresh_succeeds env' _ pool_rows' signal_rows' Hexp Hs' Hp' Hd')
      as (H1 & H2 & H3).
    cbn zeta in *. subst st2 now'. rewrite H1, H2, H3, Hticks. auto.
Qed.

End CacheContents.

Lemma cache_is_reused_within_ttl_witness :
  let st2 :=
    _refresh_cache_if_needed Outage.env
      (_refresh_cache_if_needed Scenario.env (__init__ 0 [])) in
  _signal_pools_cache st2 = map pool_of_row [Scenario.P]
  /\ _signals_cache st2 = signals_of_rows [Scenario.S1]
  /\ _cache_time st2 = clock Scenario.env 0.
Proof.
  refine (proj1 (cache_is_reused_within_ttl Scenario.env (__init__ 0 []) Outage.env
                   [Scenario.P] [] [Scenario.S1] [] _ _ _ _) _).
  - vm_compute. reflexivity.
  - reflexivity.
  - reflexivity.
  - reflexivity.
  - vm_compute. reflexivity.
Defined.

Section Candidates.

Lemma set_add_in (s : list Z) (x y : Z) :
  In y (set_add s x) <-> In y s \/ y = x.
Proof.
  unfold set_add. destruct (existsb (Z.eqb x) s) eqn:Hx.
  - apply existsb_exists in Hx. destruct Hx as (z & Hz & Heq).
    apply Z.eqb_eq in Heq. subst z. split; [now left|]. intros [H| ->]; assumption.
  - rewrite in_app_iff. cbn. intuition.
Qed.

Lemma set_add_nodup (s : list Z) (x : Z) :
  List.NoDup s -> List.NoDup (set_add s x).
Proof.
  intros Hs. unfold set_add. destruct (existsb (Z.eqb x) s) eqn:Hx; [exact Hs|].
  apply NoDup_ListNoDup, NoDup_app. repeat split.
  - now apply NoDup_ListNoDup.
  - intros y Hy Hyx. apply list_elem_of_In in Hy.
    apply list_elem_of_In in Hyx. destruct Hyx as [<-|[]].
    assert (Htrue : existsb (Z.eqb x) s = true)
      by (apply existsb_exists; exists x; split; [exact Hy|apply Z.eqb_refl]).
    congruence.
  - apply NoDup_ListNoDup. repeat constructor. intros [].
Qed.

Lemma set_update_spec (ids : list Z) :
  forall s : list Z,
    (List.NoDup s -> List.NoDup (set_update s ids))
    /\ forall y, In y (set_update s ids) <-> In y s \/ In y ids.
Proof.
  induction ids as [|x ids IH]; intros s; cbn [set_update fold_left].
  - split; [auto|]. intros y. cbn. tauto.
  - destruct (IH (set_add s x)) as [Hn Hi]. unfold set_update in *. split.
    + intros Hs. now apply Hn, set_add_nodup.
    + intros y. rewrite Hi, set_add_in. cbn. intuition.
Qed.

Lemma collect_ids_spec (pools : list Pool.t) :
  forall s : list Z,
    (List.NoDup s ->
     List.NoDup (fold_left (fun s pool => set_update s (Pool.signal_ids pool)) pools s))
    /\ forall y,
         In y (fold_left (fun s pool => set_update s (Pool.signal_ids pool)) pools s)
         <-> In y s \/ exists pool, In pool pools /\ In y (Pool.signal_ids pool).
Proof.
  induction pools as [|p pools IH]; intros s; cbn [fold_left].
  - split; [auto|]. intros y. split; [now left|]. intros [H|(p & [] & _)]. exact H.
  - destruct (IH (set_update s (Pool.signal_ids p))) as [Hn Hi].
    destruct (set_update_spec (Pool.signal_ids p) s) as [Hn' Hi']. split.
    + intros Hs. now apply Hn, Hn'.
    + intros y. rewrite Hi, Hi'. split.
      * intros [[H|H]|(q & Hq & Hy)]; [now left| |].
        -- right. exists p. split; [now left|exact H].
        -- right. exists q. split; [now right|exact Hy].
      * intros [H|(q & [<-|Hq] & Hy)]; [now left; left|now left; right|].
        right. exists q. now split.
Qed.

(** X19. The candidate ids of a symbol contain no id twice, and an id is a
    candidate exactly when some cached pool is enabled, lists the symbol and
    lists the id: a signal held by several pools is evaluated once. *)
Theorem candidate_ids_are_the_union (symbol : string) (st : State) :
  List.NoDup (candidate_ids symbol st)
  /\ forall signal_id : Z,
       In signal_id (candidate_ids symbol st)
       <-> exists pool : Pool.t,
             In pool (_signal_pools_cache st)
             /\ Pool.enabled pool = true
             /\ In symbol (Pool.symbols pool)
             /\ In signal_id (Pool.signal_ids pool).
Proof.
  unfold candidate_ids.
  destruct (collect_ids_spec
              (List.filter (relevant symbol) (_signal_pools_cache st)) []) as [Hn Hi].
  split; [apply Hn; constructor|].
  intros signal_id. rewrite Hi. split.
  - intros [[]|(p & Hp & Hy)]. apply filter_In in Hp. destruct Hp as [Hp Hrel].
    unfold relevant in Hrel. apply andb_true_iff in Hrel. destruct Hrel as [He Hs].
    apply existsb_exists in Hs. destruct Hs as (s & Hs & Heq).
    apply String.eqb_eq in Heq. subst s. exists p. auto.
  - intros (p & Hp & He & Hs & Hy). right. exists p. split; [|exact Hy].
    apply filter_In. split; [exact Hp|]. unfold relevant. rewrite He. cbn.
    apply existsb_exists. exists symbol. split; [exact Hs|apply String.eqb_refl].
Qed.

(** X20. When, after the refresh, no cached pool is enabled and lists the
    symbol, [detect_signals] returns no record and leaves every edge state
    as it was. *)
Theorem unwatched_symbol_is_ignored (env : Env) (symbol : string)
  (market_data : PyDict) (st : State) :
  (forall pool : Pool.t,
      In pool (_signal_pools_cache (_refresh_cache_if_needed env st)) ->
      Pool.enabled pool = true -> ~ In symbol (Pool.symbols pool)) ->
  (detect_signals env symbol market_data st).1 = []
  /\ signal_states (detect_signals env symbol market_data st).2 = signal_states st.
Proof.
  intros Hnone. unfold detect_signals. cbn zeta.
  destruct (List.filter (relevant symbol)
              (_signal_pools_cache (_refresh_cache_if_needed env st))) as [|p ps] eqn:Hf.
  - split; [reflexivity|]. cbn [snd].
    now destruct (refresh_frame env st) as (-> & _).
  - exfalso. assert (Hp : In p (p :: ps)) by now left.
    rewrite <- Hf in Hp. apply filter_In in Hp. destruct Hp as [Hp Hrel].
    unfold relevant in Hrel. apply andb_true_iff in Hrel. destruct Hrel as [He Hs].
    apply existsb_exists in Hs. destruct Hs as (s & Hs & Heq).
    apply String.eqb_eq in Heq. subst s. exact (Hnone p Hp He Hs).
Qed.

End Candidates.

Lemma unwatched_symbol_is_ignored_witness :
  (detect_signals Scenario.env "ETH" (Scenario.update 1100000) (__init__ 0 [])).1 = []
  /\ signal_states
       (detect_signals Scenario.env "ETH" (Scenario.update 1100000) (__init__ 0 [])).2
     = signal_states (__init__ 0 []).
Proof.
  apply unwatched_symbol_is_ignored.
  intros pool Hpool _ Hsym. vm_compute in Hpool. destruct Hpool as [<-|[]].
  cbn in Hsym. destruct Hsym as [H|[]]. discriminate H.
Defined.

Section Labels.

Lemma colon_free_digits (d : Decimal.uint) :
  colon_free (NilEmpty.string_of_uint d) = true.
Proof.
  induction d; cbn; auto.
Qed.

Lemma colon_free_str_int (z : Z) : colon_free (py_str_int z) = true.
Proof.
  unfold py_str_int, NilZero.string_of_int, NilZero.string_of_uint.
  destruct (Z.to_int z) as [d|d]; destruct d; cbn; auto using colon_free_digits.
Qed.

Lemma str_int_inj (z z' : Z) : py_str_int z = py_str_int z' -> z = z'.
Proof.
  unfold py_str_int. intros H. apply DecimalZ.to_int_inj.
  assert (Hgood : forall n : Z,
             NilZero.int_of_string (NilZero.string_of_int (Z.to_int n))
             = Some (Z.to_int n)).
  { intros n. apply NilZero.isi; destruct n; cbn; try discriminate;
      intros [= Hn]; exact (DecimalPos.Unsigned.to_uint_nonnil _ Hn). }
  pose proof (Hgood z) as Hz. rewrite H, Hgood in Hz. now injection Hz.
Qed.

Lemma split_at_colon (a a' s s' : string) :
  colon_free a = true -> colon_free a' = true ->
  String.append a (String ":"%char s) = String.append a' (String ":"%char s') ->
  a = a' /\ s = s'.
Proof.
  revert a'. induction a as [|c a IH]; intros [|c' a'] Ha Ha';
    cbn [String.append colon_free] in *.
  - intros [= H]. now subst.
  - intros [= <- _]. discriminate Ha'.
  - intros [= -> _]. discriminate Ha.
  - intros [= <- Hrest].
    apply andb_true_iff in Ha, Ha'. destruct Ha as [_ Ha], Ha' as [_ Ha'].
    destruct (IH a' Ha Ha' Hrest) as [-> ->]. auto.
Qed.

Lemma label_of_key_inj (k k' : Z * string) :
  label_of_key k = label_of_key k' -> k = k'.
Proof.
  destruct k as [i s], k' as [i' s']. unfold label_of_key. cbn [fst snd].
  intros H.
  destruct (split_at_colon _ _ _ _ (colon_free_str_int i) (colon_free_str_int i') H)
    as [Hi ->].
  now rewrite (str_int_inj _ _ Hi).
Qed.

End Labels.

Section FoldInsert.

Context {A V : Type} (label : A -> string) (val : A -> V).

Lemma fold_insert_miss (l : list A) (k : string) :
  (forall x, In x l -> label x <> k) ->
  forall m : gmap string V,
    fold_left (fun m x => <[label x := val x]> m) l m !! k = m !! k.
Proof.
  induction l as [|a l IH]; intros Hne m; [reflexivity|].
  cbn [fold_left]. rewrite IH by (intros x Hx; apply Hne; now right).
  apply lookup_insert_ne, Hne. now left.
Qed.

Lemma fold_insert_hit (l : list A) (x : A) :
  In x l ->
  (forall y z, In y l -> In z l -> label y = label z -> y = z) ->
  fold_left (fun m x => <[label x := val x]> m) l (∅ : gmap string V) !! label x
  = Some (val x).
Proof.
  induction l as [|a l IH] using rev_ind; intros Hx Hinj; [destruct Hx|].
  rewrite fold_left_app. cbn [fold_left].
  destruct (String.eqb_spec (label a) (label x)) as [Heq|Hne].
  - rewrite Heq, lookup_insert_eq. f_equal. f_equal.
    apply Hinj; [apply in_or_app; right; now left|exact Hx|exact Heq].
  - rewrite lookup_insert_ne by exact Hne.
    apply in_app_or in Hx. destruct Hx as [Hx|[->|[]]]; [|now destruct Hne].
    apply IH; [exact Hx|].
    intros y z Hy Hz. apply Hinj; apply in_or_app; now left.
Qed.

End FoldInsert.

Section Introspection.

Lemma state_label_of_key (st : State) (k : Z * string) (s : SignalState.t) :
  keys_agree st -> signal_states st !! k = Some s -> state_label s = label_of_key k.
Proof.
  intros Hst Hs. rewrite <- (Hst k s Hs). reflexivity.
Qed.

Lemma in_map_to_list (st : State) (kv : (Z * string) * SignalState.t) :
  In kv (map_to_list (signal_states st)) <-> signal_states st !! kv.1 = Some kv.2.
Proof.
  destruct kv as [k s]. rewrite <- list_elem_of_In. apply elem_of_map_to_list.
Qed.

(** X21. In a service whose states are stored under the pairs their fields
    name, [get_signal_states] reports every stored pair under the label
    made of its id in decimal, a colon and its symbol, with the flag, last
    value and last check time of its state, and reports nothing under the
    label of a pair that is not stored. *)
Theorem get_signal_states_reports_each_pair (st : State) (signal_id : Z)
  (symbol : string) :
  keys_agree st ->
  get_signal_states st !! label_of_key (signal_id, symbol)
  = state_view <$> signal_states st !! (signal_id, symbol).
Proof.
  intros Hst. unfold get_signal_states.
  destruct (signal_states st !! (signal_id, symbol)) as [s|] eqn:Hs; cbn [fmap option_fmap option_map].
  - rewrite <- (state_label_of_key st _ s Hst Hs).
    apply (fold_insert_hit (fun kv : (Z * string) * SignalState.t => state_label kv.2)
             (fun kv => state_view kv.2) _ ((signal_id, symbol), s)).
    + apply in_map_to_list. exact Hs.
    + intros [k1 s1] [k2 s2] H1 H2 Heq. cbn [snd] in Heq.
      apply in_map_to_list in H1, H2. cbn [fst snd] in H1, H2.
      rewrite (state_label_of_key st k1 s1 Hst H1) in Heq.
      rewrite (state_label_of_key st k2 s2 Hst H2) in Heq.
      apply label_of_key_inj in Heq. subst k2. congruence.
  - rewrite (fold_insert_miss
               (fun kv : (Z * string) * SignalState.t => state_label kv.2)
               (fun kv => state_view kv.2)); [apply lookup_empty|].
    intros [k1 s1] H1 Heq. cbn [snd] in Heq.
    apply in_map_to_list in H1. cbn [fst snd] in H1.
    rewrite (state_label_of_key st k1 s1 Hst H1) in Heq.
    apply label_of_key_inj in Heq. subst k1. congruence.
Qed.

End Introspection.

Lemma get_signal_states_reports_each_pair_witness :
  let st :=
    (detect_signals Scenario.env "BTC" (Scenario.update 1100000) (__init__ 0 [])).2 in
  label_of_key (1, "BTC") = "1:BTC"
  /\ get_signal_states st !! label_of_key (1, "BTC")
     = state_view <$> signal_states st !! (1, "BTC").
Proof.
  split; [reflexivity|].
  apply get_signal_states_reports_each_pair.
  apply detect_signals_keys_agree, fresh_keys_agree.
Defined.

Section NothingMet.

Variable env : Env.
Variable symbol : string.
Variable market_data : PyDict.

Lemma check_signals_nothing_met (ids : list Z) (cache : gmap Z SignalDef.t) :
  (forall (signal_id : Z) (signal_def : SignalDef.t),
      cache !! signal_id = Some signal_def ->
      condition_outcome env signal_def symbol market_data <> Some true) ->
  forall (acc : list TriggerRecord.t) (st : State),
    _signals_cache st = cache ->
    (check_signals env ids symbol market_data acc st).1 = acc.
Proof.
  intros Hnone. induction ids as [|signal_id rest IH]; intros acc st Hcache;
    [reflexivity|].
  cbn [check_signals]. rewrite Hcache.
  destruct (cache !! signal_id) as [signal_def|] eqn:Hdef; [|now apply IH].
  destruct (negb (SignalDef.enabled signal_def)); [now apply IH|].
  pose proof (triggered_is_edge env symbol market_data signal_id signal_def st) as Hedge.
  destruct (check_signal_trigger_caches env signal_id signal_def symbol market_data st)
    as (_ & Hkeep & _).
  cbn zeta in Hkeep.
  destruct (_check_signal_trigger env signal_id signal_def symbol market_data st)
    as [[[t|]|e] st']; cbn [fst snd] in *.
  - destruct (Hedge t eq_refl) as (_ & _ & _ & Hout).
    now destruct (Hnone signal_id signal_def Hdef).
  - apply IH. congruence.
  - reflexivity.
Qed.

(** X22. If, for every definition in the cache after the refresh, the
    condition is not met on this update (its outcome is false or it has
    none), [detect_signals] returns no record. *)
Theorem nothing_met_nothing_returned (st : State) :
  (forall (signal_id : Z) (signal_def : SignalDef.t),
      _signals_cache (_refresh_cache_if_needed env st) !! signal_id = Some signal_def ->
      condition_outcome env signal_def symbol market_data <> Some true) ->
  (detect_signals env symbol market_data st).1 = [].
Proof.
  intros Hnone. unfold detect_signals. cbn zeta.
  destruct (List.filter (relevant symbol)
              (_signal_pools_cache (_refresh_cache_if_needed env st)));
    [reflexivity|].
  now apply (check_signals_nothing_met _ _ Hnone).
Qed.

End NothingMet.

Lemma nothing_met_nothing_returned_witness :
  (detect_signals Scenario.env "BTC" (Scenario.update 900000) (__init__ 0 [])).1 = [].
Proof.
  apply nothing_met_nothing_returned.
  intros signal_id signal_def Hdef.
  change (_signals_cache (_refresh_cache_if_needed Scenario.env (__init__ 0 [])))
    with (<[1 := Scenario.S1]> (∅ : gmap Z SignalDef.t)) in Hdef.
  destruct (decide (signal_id = 1)) as [->|Hne].
  - rewrite lookup_insert_eq in Hdef. injection Hdef as <-. vm_compute. discriminate.
  - rewrite lookup_insert_ne in Hdef by congruence.
    rewrite lookup_empty in Hdef. discriminate.
Defined.

Section FloatOrder.

Local Open Scope float_scope.

Lemma SFltb_negb_SFleb (x y : spec_float) :
  x <> S754_nan -> y <> S754_nan -> SFltb x y = negb (SFleb y x).
Proof.
  intros Hx Hy. unfold SFltb, SFleb, SFcompare.
  destruct x as [sx|sx| |sx mx ex], y as [sy|sy| |sy my ey];
    try congruence; try (destruct sx; reflexivity); try (destruct sy; reflexivity);
    try (destruct sx, sy; reflexivity).
  destruct sx, sy; try reflexivity;
    rewrite (Z.compare_antisym ex ey); destruct (ex ?= ey)%Z; cbn [CompOpp];
    try reflexivity;
    (let H := fresh in
     pose proof (Pos.compare_cont_antisym mx my Eq) as H;
     cbn [CompOpp] in H; rewrite <- H);
    destruct (Pos.compare_cont Eq mx my); reflexivity.
Qed.

Lemma not_nan_spec (x : float) : is_nan x = false -> Prim2SF x <> S754_nan.
Proof.
  unfold is_nan. rewrite FloatAxioms.eqb_spec. intros H Hnan.
  rewrite Hnan in H. discriminate H.
Qed.

Lemma nan_spec (x : float) : is_nan x = true -> Prim2SF x = S754_nan.
Proof.
  unfold is_nan. rewrite FloatAxioms.eqb_spec. unfold SFeqb, SFcompare.
  destruct (Prim2SF x) as [s|s| |s m e]; try reflexivity; intros H; exfalso.
  - cbn in H. discriminate H.
  - destruct s; cbn in H; discriminate H.
  - destruct s; rewrite Z.compare_refl, Pos.compare_cont_refl in H; cbn in H;
      discriminate H.
Qed.

Lemma ltb_negb_leb (x y : float) :
  is_nan x = false -> is_nan y = false -> (x <? y) = negb (y <=? x).
Proof.
  intros Hx Hy. rewrite FloatAxioms.ltb_spec, FloatAxioms.leb_spec.
  apply SFltb_negb_SFleb; now apply not_nan_spec.
Qed.

Lemma abs_not_nan (x : float) : is_nan x = false -> is_nan (abs x) = false.
Proof.
  intros Hx. apply not_nan_spec in Hx.
  destruct (is_nan (abs x)) eqn:Habs; [|reflexivity].
  apply nan_spec in Habs. rewrite FloatAxioms.abs_spec in Habs.
  destruct (Prim2SF x); cbn in Habs; congruence.
Qed.

Lemma nan_compares_false (x y : float) :
  is_nan x = true \/ is_nan y = true -> (x <? y) = false /\ (x <=? y) = false.
Proof.
  rewrite FloatAxioms.ltb_spec, FloatAxioms.leb_spec. unfold SFltb, SFleb, SFcompare.
  intros [H|H]; apply nan_spec in H; rewrite H;
    destruct (Prim2SF x), (Prim2SF y); split; reflexivity.
Qed.

Lemma abs_nan (x : float) : is_nan x = true -> is_nan (abs x) = true.
Proof.
  intros Hx. apply nan_spec in Hx.
  destruct (is_nan (abs x)) eqn:Habs; [reflexivity|].
  apply not_nan_spec in Habs. rewrite FloatAxioms.abs_spec, Hx in Habs. now destruct Habs.
Qed.

Lemma tolerance_not_nan : is_nan tolerance = false.
Proof. vm_compute. reflexivity. Qed.

(** X23. On operands that are numbers, the operators answer as opposites:
    [<=] is the negation of [>], [>=] the negation of [<], and, when the
    difference is a number, [!=] the negation of [==].  When the difference
    is not a number, [==] and [!=] are both false. *)
Theorem operators_are_opposites (v t : float) :
  (is_nan v = false -> is_nan t = false ->
   exists b b' : bool,
     _evaluate_condition v (VStr ">") (VFloat t) = Ok b
     /\ _evaluate_condition v (VStr "<=") (VFloat t) = Ok (negb b)
     /\ _evaluate_condition v (VStr "<") (VFloat t) = Ok b'
     /\ _evaluate_condition v (VStr ">=") (VFloat t) = Ok (negb b'))
  /\ (is_nan (v - t) = false ->
      exists b : bool,
        _evaluate_condition v (VStr "==") (VFloat t) = Ok b
        /\ _evaluate_condition v (VStr "!=") (VFloat t) = Ok (negb b))
  /\ (is_nan (v - t) = true ->
      _evaluate_condition v (VStr "==") (VFloat t) = Ok false
      /\ _evaluate_condition v (VStr "!=") (VFloat t) = Ok false).
Proof.
  assert (Heq : _evaluate_condition v (VStr "==") (VFloat t)
                = Ok (abs (v - t) <? tolerance)) by reflexivity.
  assert (Hne : _evaluate_condition v (VStr "!=") (VFloat t)
                = Ok (tolerance <=? abs (v - t))) by reflexivity.
  rewrite Heq, Hne. clear Heq Hne.
  split; [|split].
  - intros Hv Ht. exists (t <? v), (v <? t).
    change (_evaluate_condition v (VStr ">") (VFloat t)) with (Ok (t <? v)).
    change (_evaluate_condition v (VStr "<=") (VFloat t)) with (Ok (v <=? t)).
    change (_evaluate_condition v (VStr "<") (VFloat t)) with (Ok (v <? t)).
    change (_evaluate_condition v (VStr ">=") (VFloat t)) with (Ok (t <=? v)).
    rewrite (ltb_negb_leb t v Ht Hv), (ltb_negb_leb v t Hv Ht), !negb_involutive.
    repeat split.
  - intros Hd. exists (abs (v - t) <? tolerance).
    rewrite (ltb_negb_leb _ _ (abs_not_nan _ Hd) tolerance_not_nan), negb_involutive.
    split; reflexivity.
  - intros Hd.
    destruct (nan_compares_false (abs (v - t)) tolerance (or_introl (abs_nan _ Hd)))
      as [-> _].
    destruct (nan_compares_false tolerance (abs (v - t)) (or_intror (abs_nan _ Hd)))
      as [_ ->].
    split; reflexivity.
Qed.

Lemma sub_nan (x y : float) : is_nan x = true -> is_nan (x - y) = true.
Proof.
  intros Hx. apply nan_spec in Hx.
  destruct (is_nan (x - y)) eqn:Hsub; [reflexivity|].
  apply not_nan_spec in Hsub. rewrite FloatAxioms.sub_spec, Hx in Hsub.
  now destruct Hsub.
Qed.

(** X24. A value that is not a number meets no condition: against any float
    threshold every operator string, recognised or not, answers false. *)
Theorem nan_value_meets_nothing (v t : float) (op : string) :
  is_nan v = true ->
  _evaluate_condition v (VStr op) (VFloat t) = Ok false.
Proof.
  intros Hv.
  destruct (nan_compares_false v t (or_introl Hv)) as [H1 H2].
  destruct (nan_compares_false t v (or_intror Hv)) as [H3 H4].
  destruct (nan_compares_false (abs v) t (or_introl (abs_nan _ Hv))) as [H5 _].
  destruct (nan_compares_false t (abs v) (or_intror (abs_nan _ Hv))) as [H6 _].
  pose proof (abs_nan _ (sub_nan v t Hv)) as Hd.
  destruct (nan_compares_false (abs (v - t)) tolerance (or_introl Hd)) as [H7 _].
  destruct (nan_compares_false tolerance (abs (v - t)) (or_intror Hd)) as [_ H8].
  unfold _evaluate_condition, py_eq_str.
  repeat match goal with
  | |- context [String.eqb op ?s] => destruct (String.eqb op s)
  end;
    cbn [orb PyNum.gt PyNum.ge PyNum.lt PyNum.le PyNum.sub rbind];
    congruence.
Qed.

End FloatOrder.

Lemma operators_are_opposites_witness :
  exists b : bool,
    _evaluate_condition 5%float (VStr "==") (VFloat 3%float) = Ok b
    /\ _evaluate_condition 5%float (VStr "!=") (VFloat 3%float) = Ok (negb b).
Proof.
  apply (proj1 (proj2 (operators_are_opposites 5%float 3%float))).
  vm_compute. reflexivity.
Defined.

Lemma nan_value_meets_nothing_witness :
  _evaluate_condition nan (VStr "!=") (VFloat 3%float) = Ok false.
Proof.
  apply nan_value_meets_nothing. vm_compute. reflexivity.
Defined.

Lemma candidate_ids_are_the_union_witness :
  In 1 (candidate_ids "BTC" (_refresh_cache_if_needed Scenario.env (__init__ 0 []))).
Proof.
  apply (proj2 (candidate_ids_are_the_union "BTC"
                  (_refresh_cache_if_needed Scenario.env (__init__ 0 []))) 1).
  exists (pool_of_row Scenario.P).
  repeat split; vm_compute; left; reflexivity.
Defined.
